(** * StretchShop cart service: a shallow embedding of
      [src/services/cart/cart.service.js] and its checked properties.

    The service is a Moleculer service whose actions are promise chains over
    a document store.  The embedding keeps the shape of the source:

    - JavaScript data is a small universe of values ([Js.value]); an object
      used as a record of fields is a finite map from property names to
      values;
    - a rejected promise or a thrown exception is the [Throw] case of the
      [result] type, a fulfilled promise is [Ok];
    - the collaborators that the service calls but does not define (the
      storage adapter, [cart.find], [cart.remove], the methods of
      [methods/core.methods]) are variables of the sections that use them;
    - [new Date()] is the parameter [now]. *)

From stdpp Require Import gmap strings list fin_maps.
From Stdlib Require Import ZArith Lia.

Set Warnings "-register-all".
Local Open Scope Z_scope.

(** ** JavaScript values *)

Module Js.

(** Numbers are modelled by integers: the quantities of this service are
    compared with [0] and [-1], subtracted and replaced, never divided. *)
Inductive value : Type :=
  | VUndefined
  | VNull
  | VBool (b : bool)
  | VNum (n : Z)
  | VStr (s : string)
  | VDate (t : Z)
  | VArr (l : list value)
  | VObj (o : gmap string value).

(** ToBoolean. *)
Definition truthy (v : value) : bool :=
  match v with
  | VUndefined | VNull => false
  | VBool b => b
  | VNum n => negb (n =? 0)
  | VStr s => negb (String.eqb s "")
  | VDate _ | VArr _ | VObj _ => true
  end.

(** [v.constructor === Array], for a value that is neither [undefined] nor
    [null]. *)
Definition is_array (v : value) : bool :=
  match v with VArr _ => true | _ => false end.

(** [typeof v !== "undefined"]. *)
Definition is_defined (v : value) : bool :=
  match v with VUndefined => false | _ => true end.

(** [v[0]]: the first element of an array, [undefined] otherwise. *)
Definition first (v : value) : value :=
  match v with
  | VArr (x :: _) => x
  | _ => VUndefined
  end.

(** [v.length > 0] on an array. *)
Definition nonempty (v : value) : bool :=
  match v with
  | VArr (_ :: _) => true
  | _ => false
  end.

(** [o.p]: reading a property that the object does not own gives
    [undefined]. *)
Definition get (o : gmap string value) (p : string) : value :=
  default VUndefined (o !! p).

End Js.
Import Js.

(** ** Failures *)

Inductive error : Type :=
  | TypeError
  | MoleculerClientError (message : string)
  | StorageError (message : string).

Inductive result (A : Type) : Type :=
  | Ok (a : A)
  | Throw (e : error).
Arguments Ok {A} a.
Arguments Throw {A} e.

Definition bind {A B : Type} (r : result A) (k : A -> result B) : result B :=
  match r with
  | Ok a => k a
  | Throw e => Throw e
  end.

Definition rmap {A B : Type} (f : A -> B) (r : result A) : result B :=
  bind r (fun a => Ok (f a)).

Notation "x <- r ;; k" := (bind r (fun x => k))
  (at level 100, r at next level, right associativity).

(** ** Persistence gateway: [prepareForUpdate] *)

(** [Object.assign({}, object)] copies the own properties; the copy loses
    [_id] when that property is defined and truthy; the result is the
    update command [{ "$set": objectToSave }]. *)
Definition prepareForUpdate (object : gmap string value) : gmap string value :=
  let objectToSave := object in
  let objectToSave :=
    if is_defined (get objectToSave "_id") && truthy (get objectToSave "_id")
    then delete "_id" objectToSave
    else objectToSave in
  {[ "$set" := VObj objectToSave ]}.

(** The payload of an update command. *)
Definition payload (command : gmap string value) : gmap string value :=
  match command !! "$set" with
  | Some (VObj o) => o
  | _ => ∅
  end.

(** ** What an action leaves behind *)

(** The calls an action makes on the storage adapter and on the change
    notification of the database mixin, in the order they are made. *)
Inductive call : Type :=
  | UpdateById (id : value) (command : gmap string value)
  | EntityChanged (kind : string) (json : value).

(** The cart object after the action (the object is mutated in place, and
    is the one bound to [ctx.meta.cart]); the calls made; what the promise of
    the action settles to. [cart_after] is [None] when there is no cart
    object at all. *)
Record outcome (C : Type) : Type := Outcome {
  cart_after : option C;
  calls : list call;
  returned : result value
}.
Arguments Outcome {C} _ _ _.
Arguments cart_after {C} _.
Arguments calls {C} _.
Arguments returned {C} _.

(** What [ctx.call("cart.me")] gives to the other actions: nothing
    ([undefined], the resolver's answer to a storage failure), one cart, or
    a sequence that starts with a cart. *)
Inductive resolved (C : Type) : Type :=
  | RUndefined
  | ROne (cart : C)
  | RMany (cart : C) (others : list C).
Arguments RUndefined {C}.
Arguments ROne {C} cart.
Arguments RMany {C} cart others.

(** [if (cart && cart.length>0) { cart = cart[0]; }] *)
Definition first_cart {C : Type} (r : resolved C) : option C :=
  match r with
  | RUndefined => None
  | ROne cart => Some cart
  | RMany cart _ => Some cart
  end.

Section Gateway.
Context {C : Type}.
(** How the cart is seen as a JavaScript object. *)
Variable object_of : C -> gmap string value.
(** [this.adapter.updateById] and [this.transformDocuments], both of the
    database mixin. *)
Variable adapter_updateById : value -> gmap string value -> result value.
Variable transformDocuments : value -> value.

(** The tail of every mutating action:
    [this.adapter.updateById(ctx.meta.cart._id, this.prepareForUpdate(cart))
       .then(doc => this.transformDocuments(ctx, {}, doc))
       .then(json => this.entityChanged(kind, json, ctx).then(() => json))] *)
Definition save (kind : string) (cart : C) : outcome C :=
  let id := get (object_of cart) "_id" in
  let command := prepareForUpdate (object_of cart) in
  match adapter_updateById id command with
  | Ok doc =>
      let json := transformDocuments doc in
      Outcome (Some cart) [UpdateById id command; EntityChanged kind json] (Ok json)
  | Throw e =>
      Outcome (Some cart) [UpdateById id command] (Throw e)
  end.
End Gateway.

(** ** Cart identity resolver: the [me] action *)

(** The part of [ctx.meta] the resolver reads and writes:
    [ctx.meta.cookies.cart] ([undefined] when any link of the chain is
    missing) and [ctx.meta.cart]. *)
Record meta : Type := Meta {
  cookies_cart : value;
  meta_cart : value
}.

(** [(ctx.meta && ctx.meta.cookies && ctx.meta.cookies.cart)
      ? ctx.meta.cookies.cart : null] *)
Definition cartCookie_of (m : meta) : value :=
  if truthy (cookies_cart m) then cookies_cart m else VNull.

Section Resolver.
(** [ctx.call("cart.find", { query: { hash } })], given the hash. *)
Variable cart_find : value -> result value.
(** [this.createEmptyCart(ctx, cartCookie)], of [methods/core.methods]. *)
Variable createEmptyCart : meta -> value -> result (value * meta).

(** The answer of the resolver when it falls back on [createEmptyCart];
    the [catch] of the action turns a failure into [undefined]. *)
Definition created (m : meta) : value * meta :=
  match createEmptyCart m (cartCookie_of m) with
  | Ok c => c
  | Throw _ => (VUndefined, m)
  end.

Definition me (m : meta) : value * meta :=
  let cartCookie := cartCookie_of m in
  if truthy cartCookie && truthy (meta_cart m) then
    (meta_cart m, m)
  else
    match cart_find cartCookie with
    | Ok found =>
        if truthy found && is_array found
           && truthy (first found) && negb (is_array (first found))
        then
          let found :=
            if truthy found && nonempty found then first found else found in
          (found, Meta (cookies_cart m) found)
        else
          created m
    | Throw _ => (VUndefined, m)
    end.
End Resolver.

(** Modelled from the spec: [createEmptyCart] is a method of
    [methods/core.methods], which is not among the sources.  The spec has
    it "create a new empty Cart with hash = T, dateCreated = dateUpdated =
    now, persist it, bind, return it"; the store is not part of [meta], so
    only the binding and the returned cart are modelled. *)
Definition createEmptyCart_spec (now : Z) (m : meta) (cartCookie : value)
  : result (value * meta) :=
  let cart :=
    VObj (<["hash" := cartCookie]>
         (<["dateCreated" := VDate now]>
         (<["dateUpdated" := VDate now]>
         {[ "items" := VArr [] ]}))) in
  Ok (cart, Meta (cookies_cart m) cart).

(** ** Cart reconciler: the [updateMyCart] action *)

(** [for (let property in cartNew)
       if (hasOwnProperty(cart, property) && hasOwnProperty(cartNew, property))
         cart[property] = cartNew[property];]
    The loop visits the own properties of the patch; the cart is the
    accumulator. *)
Definition reconcile (cart cartNew : gmap string value) : gmap string value :=
  map_fold
    (fun property v cart =>
       if decide (is_Some (cart !! property)) then <[property := v]> cart else cart)
    cart cartNew.

Section Reconciler.
Variable adapter_updateById : value -> gmap string value -> result value.
Variable transformDocuments : value -> value.

Definition updateMyCart (cartNew : gmap string value)
    (r : resolved (gmap string value)) (now : Z) : outcome (gmap string value) :=
  match first_cart r with
  | None => Outcome None [] (Throw TypeError)
  | Some cart =>
      let cart := reconcile cart cartNew in
      let cart := <["dateUpdated" := VDate now]> cart in
      save (fun c => c) adapter_updateById transformDocuments "updated" cart
  end.
End Reconciler.

(** ** Documents typed by the validator schemas *)

(** A product as [products.findWithId] returns it; [type], [subtype] and
    [stockAmount] may be missing from the record. *)
Module Product.
Record t : Type := Make {
  _id : string;
  type : option string;
  subtype : option string;
  stockAmount : option Z
}.
End Product.

(** A line of the cart.  The engine reads and writes [_id], [amount] and
    [requirements]; the other properties of the line (description, prices,
    url, ...) travel in [snapshot]. *)
Module CartItem.
Record t : Type := Make {
  _id : string;
  amount : Z;
  requirements : option (list (string * string));
  snapshot : gmap string value
}.

Definition with_amount (a : Z) (item : t) : t :=
  Make (_id item) a (requirements item) (snapshot item).

(** [item.requirements && item.requirements.length>0] *)
Definition has_requirements (item : t) : bool :=
  match requirements item with
  | Some (_ :: _) => true
  | _ => false
  end.

Definition to_value (item : t) : value :=
  let requirement (r : string * string) : value :=
    VObj (<["codename" := VStr r.1]> {[ "value" := VStr r.2 ]}) in
  let o :=
    match requirements item with
    | Some rs => <["requirements" := VArr (requirement <$> rs)]> (snapshot item)
    | None => snapshot item
    end in
  VObj (<["_id" := VStr (_id item)]> (<["amount" := VNum (amount item)]> o)).
End CartItem.

(** The cart document, with the fields of [settings.fields]; a field the
    document does not own is [None]. *)
Module Cart.
Record t : Type := Make {
  _id : option string;
  user : option string;
  ip : option string;
  hash : option string;
  order : option string;
  dateCreated : option Z;
  dateUpdated : option Z;
  items : option (list CartItem.t)
}.

(** [cart.items = ...] *)
Definition with_items (l : list CartItem.t) (c : t) : t :=
  Make (_id c) (user c) (ip c) (hash c) (order c) (dateCreated c) (dateUpdated c)
       (Some l).

(** [cart.dateUpdated = new Date()] *)
Definition with_dateUpdated (now : Z) (c : t) : t :=
  Make (_id c) (user c) (ip c) (hash c) (order c) (dateCreated c) (Some now)
       (items c).

Definition field (p : string) (v : option value) (o : gmap string value)
  : gmap string value :=
  match v with
  | Some v => <[p := v]> o
  | None => o
  end.

Definition to_object (c : t) : gmap string value :=
  field "_id" (VStr <$> _id c)
  (field "user" (VStr <$> user c)
  (field "ip" (VStr <$> ip c)
  (field "hash" (VStr <$> hash c)
  (field "order" (VStr <$> order c)
  (field "dateCreated" (VDate <$> dateCreated c)
  (field "dateUpdated" (VDate <$> dateUpdated c)
  (field "items" ((fun l => VArr (CartItem.to_value <$> l)) <$> items c) ∅))))))).
End Cart.

(** ** Item merge engine: the availability check of the [add] action *)

Module AddParams.
Record t : Type := Make {
  itemId : string;
  amount : Z;
  requirements : option (list (string * string))
}.

(** [ctx.params.amount = a] *)
Definition with_amount (a : Z) (p : t) : t :=
  Make (itemId p) a (requirements p).
End AddParams.

(** [productAvailable.type=="subscription" || productAvailable.subtype=="digital"] *)
Definition subscription_or_digital (p : Product.t) : bool :=
  bool_decide (Product.type p = Some "subscription")
  || bool_decide (Product.subtype p = Some "digital").

(** The first [then] of the action.  [found] is what
    [products.findWithId] answers: [None] for a falsy answer, [Some l] for
    an array.  An empty array passes both tests of the source (it is
    truthy, and [productAvailable.length===0 && productAvailable[0]] is
    falsy) and has no [stockAmount], so it goes on as [None]; a non-empty
    one is replaced by its first element, whose [_id] is turned into a
    string (it is one here).  A comparison with a missing [stockAmount] is
    false. *)
Definition check_amount (params : AddParams.t) (found : option (list Product.t))
  : result (AddParams.t * option Product.t) :=
  match found with
  | None => Throw (MoleculerClientError "No matching product found")
  | Some [] => Ok (params, None)
  | Some (productAvailable :: _) =>
      match Product.stockAmount productAvailable with
      | Some stockAmount =>
          if stockAmount <? AddParams.amount params then
            if subscription_or_digital productAvailable then
              let params := AddParams.with_amount 1 params in
              if -1 <? stockAmount then
                Throw (MoleculerClientError "Requested amount is not available")
              else Ok (params, Some productAvailable)
            else
              Throw (MoleculerClientError "Requested amount is not available")
          else Ok (params, Some productAvailable)
      | None => Ok (params, Some productAvailable)
      end
  end.

Section Merge.
Context {Line Answer : Type}.
(** [this.addCartItemRequirements(ctx, productAvailable)] and
    [this.addToCart(ctx, productAvailable)], of [methods/core.methods];
    both read [ctx.params]. *)
Variable addCartItemRequirements : AddParams.t -> option Product.t -> Line.
Variable addToCart : AddParams.t -> Line -> result Answer.

Definition add (params : AddParams.t) (found : option (list Product.t))
  : result Answer :=
  checked <- check_amount params found ;;
  let '(params, productAvailable) := checked in
  let productAvailable := addCartItemRequirements params productAvailable in
  addToCart params productAvailable.
End Merge.

(** ** Item mutation engine: the [delete] and [updateCartItemAmount] actions *)

(** The parameters of both actions. *)
Module Params.
(** What a request carries as [amount]: nothing, [null], or a number; the
    optional rule of the schema lets the first two through.  For [itemId]
    the two are one case, [None]: both are falsy, and
    [updateCartItemAmount] turns a missing [itemId] into [null]. *)
Inductive amount_t : Type :=
  | Missing
  | Null
  | Number (a : Z).

Record t : Type := Make {
  itemId : option string;
  amount : amount_t
}.

(** The [params] schema of both actions:
    [itemId: { type: "string", min: 3, optional: true }],
    [amount: { type: "number", positive: true, optional: true }]. *)
Definition valid (p : t) : bool :=
  match itemId p with
  | Some s => (3 <=? String.length s)%nat
  | None => true
  end
  && match amount p with
     | Number a => 0 <? a
     | Missing | Null => true
     end.

(** [ctx.params.amount =
       (typeof ctx.params.amount !== "undefined") ? ctx.params.amount : 1] *)
Definition amount_or_1 (p : t) : amount_t :=
  match amount p with
  | Missing => Number 1
  | given => given
  end.
End Params.

(** [if (itemId)]: a missing, [null] or empty identifier is falsy. *)
Definition truthy_id (itemId : option string) : option string :=
  match itemId with
  | Some s => if String.eqb s "" then None else Some s
  | None => None
  end.

(** [if (amount && amount>0)]: a missing or [null] amount is falsy. *)
Definition positive_amount (amount : Params.amount_t) : option Z :=
  match amount with
  | Params.Number a => if negb (a =? 0) && (0 <? a) then Some a else None
  | Params.Missing | Params.Null => None
  end.

(** The search loop of both actions: the index of the first line whose
    [_id] equals [itemId]; [None] stands for the initial [-1]. *)
Fixpoint productInCart (itemId : string) (items : list CartItem.t) : option nat :=
  match items with
  | [] => None
  | item :: items =>
      if String.eqb (CartItem._id item) itemId then Some 0%nat
      else S <$> productInCart itemId items
  end.

(** The body of [delete] under [cart.items.length>0];
    [cart.items.splice(i, 1)] is the list [delete i]. *)
Definition delete_from (params : Params.t) (items : list CartItem.t)
  : list CartItem.t :=
  match truthy_id (Params.itemId params) with
  | Some itemId =>
      match productInCart itemId items with
      | Some i =>
          match positive_amount (Params.amount params) with
          | Some amount =>
              let items :=
                alter (fun item =>
                         CartItem.with_amount (CartItem.amount item - amount) item)
                      i items in
              match items !! i with
              | Some item =>
                  if CartItem.amount item <=? 0 then delete i items else items
              | None => items
              end
          | None => delete i items
          end
      | None => items
      end
  | None => []
  end.

(** The body of [updateCartItemAmount] under [cart.items.length>0], with
    the items as the loop leaves them and whether it threw: after a
    [splice], [cart.items[productInCart]] is the next line, or [undefined]
    when the last line was removed, and reading [requirements] of
    [undefined] throws. *)
Definition set_amount (itemId : option string) (amount : Params.amount_t)
    (items : list CartItem.t) : list CartItem.t * result unit :=
  match truthy_id itemId with
  | Some itemId =>
      match productInCart itemId items with
      | Some i =>
          match positive_amount amount with
          | Some amount =>
              let items := alter (CartItem.with_amount amount) i items in
              let items :=
                match items !! i with
                | Some item =>
                    if CartItem.amount item <=? 0 then delete i items else items
                | None => items
                end in
              match items !! i with
              | Some item =>
                  if CartItem.has_requirements item
                  then (alter (CartItem.with_amount 1) i items, Ok tt)
                  else (items, Ok tt)
              | None => (items, Throw TypeError)
              end
          | None => (items, Ok tt)
          end
      | None => (items, Ok tt)
      end
  | None => (items, Ok tt)
  end.

Section Mutation.
Variable adapter_updateById : value -> gmap string value -> result value.
Variable transformDocuments : value -> value.

(** The action [delete] (the name [delete] is the list and map operation
    here). *)
Definition cart_delete (params : Params.t) (r : resolved Cart.t) (now : Z)
  : outcome Cart.t :=
  match first_cart r with
  | None => Outcome None [] (Throw TypeError)
  | Some cart =>
      match Cart.items cart with
      | Some ((_ :: _) as items) =>
          let cart := Cart.with_items (delete_from params items) cart in
          let cart := Cart.with_dateUpdated now cart in
          save Cart.to_object adapter_updateById transformDocuments "removed" cart
      | _ => Outcome (Some cart) [] (Ok VUndefined)
      end
  end.

Definition updateCartItemAmount (params : Params.t) (r : resolved Cart.t)
    (now : Z) : outcome Cart.t :=
  let itemId := Params.itemId params in
  let amount := Params.amount_or_1 params in
  match first_cart r with
  | None => Outcome None [] (Throw TypeError)
  | Some cart =>
      match Cart.items cart with
      | Some ((_ :: _) as items) =>
          let '(items, status) := set_amount itemId amount items in
          let cart := Cart.with_items items cart in
          match status with
          | Ok _ =>
              let cart := Cart.with_dateUpdated now cart in
              save Cart.to_object adapter_updateById transformDocuments "updated" cart
          | Throw e => Outcome (Some cart) [] (Throw e)
          end
      | _ => Outcome (Some cart) [] (Ok VUndefined)
      end
  end.
End Mutation.

(** ** Retention sweeper: the [cleanCarts] action *)

(** [Promise.all]: the values in the order of the promises when all are
    fulfilled, otherwise a rejection.  The promises are taken to settle in
    the order of the list, so the rejection is that of the first rejected
    one; what is proved of the sweep names the rejection only as that of
    some removal that failed, which holds for every order of settling. *)
Fixpoint promise_all {A : Type} (promises : list (result A)) : result (list A) :=
  match promises with
  | [] => Ok []
  | Ok a :: promises => rmap (cons a) (promise_all promises)
  | Throw e :: _ => Throw e
  end.

(** Modelled from the spec: the storage query of the database mixin, which
    is not among the sources.  The spec has the sweeper query "for all carts
    with dateUpdated strictly before cutoff"; a cart without the field does
    not match. *)
Definition older_than (d : Z) (cart : Cart.t) : bool :=
  match Cart.dateUpdated cart with
  | Some t => t <? d
  | None => false
  end.

Definition adapter_find (d : Z) (store : list Cart.t) : list Cart.t :=
  List.filter (older_than d) store.

Section Sweeper.
(** [JSON.stringify]. *)
Variable stringify : value -> string.
(** The failure, if any, of the removal of the cart with a given id. *)
Variable fails : option string -> option error.
(** [d.setMonth(d.getMonth() - 1)]: the date one month before. *)
Variable month_before : Z -> Z.

(** Modelled from the spec: [cart.remove] is an action of the database
    mixin, which is not among the sources.  The spec has it as
    "remove(id) -> id"; a removal that fails leaves the store as it is. *)
Definition cart_remove (id : option string) (store : list Cart.t)
  : result value * list Cart.t :=
  match fails id with
  | Some e => (Throw e, store)
  | None =>
      (Ok (from_option VStr VUndefined id),
       List.filter (fun cart => negb (bool_decide (Cart._id cart = id))) store)
  end.

(** The [forEach] of the action: one removal call per cart found, each
    with its [then]; the calls are made one after the other whatever the
    earlier ones answer. *)
Fixpoint remove_each (found : list Cart.t) (store : list Cart.t)
  : list (result string) * list Cart.t :=
  match found with
  | [] => ([], store)
  | cart :: found =>
      let '(removed, store) := cart_remove (Cart._id cart) store in
      let promise :=
        rmap (fun removed => "Removed carts: " +:+ stringify removed) removed in
      let '(promises, store) := remove_each found store in
      (promise :: promises, store)
  end.

(** What the [then] of one removal settles to. *)
Definition removal_message (cart : Cart.t) : string :=
  "Removed carts: " +:+ stringify (from_option VStr VUndefined (Cart._id cart)).

Definition removal_outcome (cart : Cart.t) : result string :=
  match fails (Cart._id cart) with
  | Some e => Throw e
  | None => Ok (removal_message cart)
  end.

(** The failure of the first cart of [found] whose removal fails. *)
Definition first_failure (found : list Cart.t) : option error :=
  head (omap (fun cart => fails (Cart._id cart)) found).

(** Whether one of the removals issued for [found] takes [cart] out of the
    store. *)
Definition removed_by (found : list Cart.t) (cart : Cart.t) : bool :=
  existsb
    (fun stale =>
       bool_decide (Cart._id cart = Cart._id stale)
       && bool_decide (fails (Cart._id stale) = None))
    found.

Definition cleanCarts (now : Z) (store : list Cart.t)
  : result (list string) * list Cart.t :=
  let d := month_before now in
  let found := adapter_find d store in
  let '(promises, store) := remove_each found store in
  (promise_all promises, store).
End Sweeper.

(** ** Sample documents and collaborators

    The data on which the properties below are instantiated. *)

(** A stored cart with one line, and a request that carries its hash and no
    cached cart. *)
Definition stored_cart : value :=
  VObj (<["_id" := VStr "c1"]>
       (<["hash" := VStr "0123456789abcdef0123456789abcdef"]>
       {[ "items" := VArr [VObj {[ "_id" := VStr "p-1" ]}] ]})).

Definition request : meta :=
  Meta (VStr "0123456789abcdef0123456789abcdef") VUndefined.

(** A store that answers an update with the payload it was given. *)
Definition echo_updateById (id : value) (command : gmap string value)
  : result value :=
  Ok (VObj (payload command)).

Definition plain_transform (doc : value) : value := doc.

(** A cart as an object of fields. *)
Definition cart_fields : gmap string value :=
  <["_id" := VStr "c1"]>
  (<["user" := VStr "u1"]>
  (<["ip" := VStr "10.0.0.1"]>
  (<["hash" := VStr "0123456789abcdef0123456789abcdef"]>
  (<["dateUpdated" := VDate 5]>
  {[ "items" := VArr [] ]})))).


(** A subscription with unlimited stock, a digital product with one piece
    in stock, and a physical product with two. *)
Definition subscription : Product.t :=
  Product.Make "prod-sub" (Some "subscription") None (Some (-1)).

Definition ebook : Product.t :=
  Product.Make "prod-ebook" (Some "product") (Some "digital") (Some 1).

Definition chair : Product.t :=
  Product.Make "prod-chair" (Some "product") (Some "physical") (Some 2).

(** A merge that answers with the amount it is asked to add. *)
Definition plain_requirements (params : AddParams.t) (p : option Product.t)
  : option Product.t := p.

Definition amount_added (params : AddParams.t) (p : option Product.t)
  : result Z := Ok (AddParams.amount params).

(** A cart with a plain line and a line that carries requirements. *)
Definition chair_line : CartItem.t :=
  CartItem.Make "prod-chair" 5 None ∅.

Definition mug_line : CartItem.t :=
  CartItem.Make "prod-mug" 3 (Some [("engraving", "Ann")]) ∅.

Definition typed_cart : Cart.t :=
  Cart.Make (Some "c1") (Some "u1") (Some "10.0.0.1")
            (Some "0123456789abcdef0123456789abcdef") None (Some 1) (Some 5)
            (Some [chair_line; mug_line]).

Definition empty_cart : Cart.t :=
  Cart.Make (Some "c2") None (Some "10.0.0.2")
            (Some "fedcba9876543210fedcba9876543210") None (Some 1) (Some 1)
            (Some []).

(** A store with two carts last touched long ago and one touched lately;
    the removal of the first one fails. *)
Definition stale_a : Cart.t :=
  Cart.Make (Some "a") None (Some "10.0.0.3") None None (Some 1) (Some 10) (Some []).

Definition stale_b : Cart.t :=
  Cart.Make (Some "b") None (Some "10.0.0.4") None None (Some 2) (Some 20) (Some []).

Definition fresh_c : Cart.t :=
  Cart.Make (Some "c") None (Some "10.0.0.5") None None (Some 3) (Some 95) (Some []).

Definition print_id (v : value) : string :=
  match v with
  | VStr s => s
  | _ => "null"
  end.

Definition a_fails (id : option string) : option error :=
  if bool_decide (id = Some "a") then Some (StorageError "remove failed") else None.

Definition thirty_days_before (now : Z) : Z := now - 30.

(** ** The daily job: [crons], [CartsCleaner.onTick] *)

(** A line of the service log: the message and, for the second line of the
    job, the data logged with it. *)
Inductive log_line : Type :=
  | Info (message : string) (data : option (list string)).

Section Cron.
Variable stringify : value -> string.
Variable fails : option string -> option error.
Variable month_before : Z -> Z.

(** [this.logger.info("Starting to Clean up the Carts");
     this.getLocalService("cart").actions.cleanCarts()
       .then((data) => { this.logger.info("Carts Cleaned up", data); });]
    The promise has no [catch]: after a rejection the job logs nothing
    more. *)
Definition onTick (now : Z) (store : list Cart.t) : list log_line * list Cart.t :=
  let starting := Info "Starting to Clean up the Carts" None in
  let '(data, store) := cleanCarts stringify fails month_before now store in
  match data with
  | Ok data => ([starting; Info "Carts Cleaned up" (Some data)], store)
  | Throw _ => ([starting], store)
  end.
End Cron.

(** ** More sample collaborators *)

(** A storage that fails on every query and on every update. *)
Definition broken_find (hash : value) : result value :=
  Throw (StorageError "find failed").

Definition broken_updateById (id : value) (command : gmap string value)
  : result value :=
  Throw (StorageError "update failed").

(** A storage that knows one cart, and one that knows none. *)
Definition one_cart_find (hash : value) : result value :=
  Ok (VArr [stored_cart]).

Definition no_cart_find (hash : value) : result value :=
  Ok (VArr []).

(** * Properties *)

(** ** Persistence gateway *)

Lemma prepareForUpdate_payload (object : gmap string value) :
  payload (prepareForUpdate object) =
  if truthy (get object "_id") then delete "_id" object else object.
Proof.
  unfold payload, prepareForUpdate.
  rewrite lookup_singleton_eq.
  destruct (get object "_id"); reflexivity.
Qed.

(** C9, as the code has it: the update command is [{ "$set": payload }];
    the payload has every field of the input other than [_id] with the
    input's value; [_id] is left out exactly when the input's [_id] is
    truthy, and an [_id] that is [null], [0], the empty string or [false]
    stays in the payload. *)
Theorem prepareForUpdate_strips_truthy_id (object : gmap string value) :
  prepareForUpdate object = {[ "$set" := VObj (payload (prepareForUpdate object)) ]}
  /\ (forall p : string, p <> "_id" ->
        payload (prepareForUpdate object) !! p = object !! p)
  /\ payload (prepareForUpdate object) !! "_id" =
       if truthy (get object "_id") then None else object !! "_id".
Proof.
  rewrite prepareForUpdate_payload. split; [|split].
  - unfold prepareForUpdate.
    destruct (get object "_id"); simpl; try reflexivity;
      match goal with |- context [if ?b then _ else _] => destruct b end;
      reflexivity.
  - intros p Hp. destruct (truthy _); [|reflexivity].
    apply lookup_delete_ne. congruence.
  - destruct (truthy _); [|reflexivity]. apply lookup_delete_eq.
Qed.

(** C9 fails as stated: a cart object whose [_id] is [null] keeps its
    [_id] in the payload that is written. *)
Lemma prepareForUpdate_keeps_null_id :
  payload (prepareForUpdate (<["_id" := VNull]> {[ "hash" := VStr "h" ]})) !! "_id"
  = Some VNull.
Proof. vm_compute. reflexivity. Qed.

(** ** Cart identity resolver *)

Section ResolverFacts.
Variable cart_find : value -> result value.
Variable createEmptyCart : meta -> value -> result (value * meta).

Lemma me_queries_storage (m : meta) (found : value) :
  truthy (cartCookie_of m) && truthy (meta_cart m) = false ->
  cart_find (cartCookie_of m) = Ok found ->
  me cart_find createEmptyCart m =
  if truthy found && is_array found
     && truthy (first found) && negb (is_array (first found))
  then (first found, Meta (cookies_cart m) (first found))
  else created createEmptyCart m.
Proof.
  intros Hcache Hfound. unfold me.
  rewrite Hcache, Hfound.
  destruct found as [| |b|n|s|t|l|o]; simpl;
    rewrite ?andb_false_r; simpl; try reflexivity.
  destruct l as [|x l]; simpl; [reflexivity|].
  destruct (truthy x && negb (is_array x)); reflexivity.
Qed.

(** C2, as the code has it: when the request holds no cached cart, a query
    result whose first element is itself a sequence is taken as "no cart
    found" and the resolver answers with [createEmptyCart], and so is one
    whose first element is falsy; the first element is taken, bound to
    [ctx.meta.cart] and returned only when it is a truthy value that is not
    a sequence. *)
Theorem me_nested_result_creates_cart (m : meta) (x : value) (others : list value) :
  truthy (cartCookie_of m) && truthy (meta_cart m) = false ->
  cart_find (cartCookie_of m) = Ok (VArr (x :: others)) ->
  (is_array x = true ->
   me cart_find createEmptyCart m = created createEmptyCart m)
  /\ (truthy x = false ->
      me cart_find createEmptyCart m = created createEmptyCart m)
  /\ (is_array x = false -> truthy x = true ->
      me cart_find createEmptyCart m = (x, Meta (cookies_cart m) x)).
Proof.
  intros Hcache Hfound.
  rewrite (me_queries_storage m _ Hcache Hfound). simpl.
  split; [|split].
  - intros ->. rewrite andb_false_r. reflexivity.
  - intros ->. reflexivity.
  - intros -> ->. reflexivity.
Qed.
End ResolverFacts.

Lemma me_nested_result_creates_cart_witness :
  me (fun _ => Ok (VArr [VArr [stored_cart]])) (createEmptyCart_spec 7) request
  = created (createEmptyCart_spec 7) request
  /\ me (fun _ => Ok (VArr [VNull; stored_cart])) (createEmptyCart_spec 7) request
     = created (createEmptyCart_spec 7) request
  /\ me (fun _ => Ok (VArr [stored_cart])) (createEmptyCart_spec 7) request
     = (stored_cart, Meta (cookies_cart request) stored_cart).
Proof.
  split; [|split].
  - destruct (me_nested_result_creates_cart
                (fun _ => Ok (VArr [VArr [stored_cart]])) (createEmptyCart_spec 7)
                request (VArr [stored_cart]) [] eq_refl eq_refl) as (H & _ & _).
    apply H. reflexivity.
  - destruct (me_nested_result_creates_cart
                (fun _ => Ok (VArr [VNull; stored_cart])) (createEmptyCart_spec 7)
                request VNull [stored_cart] eq_refl eq_refl) as (_ & H & _).
    apply H. reflexivity.
  - destruct (me_nested_result_creates_cart
                (fun _ => Ok (VArr [stored_cart])) (createEmptyCart_spec 7)
                request stored_cart [] eq_refl eq_refl) as (_ & _ & H).
    apply H; reflexivity.
Defined.

(** C2 fails as stated: on the nested result [[ [cart] ]] the resolver
    returns neither the first element nor the cart inside it, but a cart
    made by [createEmptyCart], here one with no items. *)
Lemma me_nested_result_not_normalized :
  let answer :=
    (me (fun _ => Ok (VArr [VArr [stored_cart]])) (createEmptyCart_spec 7)
        request).1 in
  answer <> VArr [stored_cart]
  /\ answer <> stored_cart
  /\ exists o, answer = VObj o /\ o !! "items" = Some (VArr []).
Proof.
  split; [|split].
  - vm_compute. discriminate.
  - intros H.
    assert (Hitems : forall o, stored_cart = VObj o ->
              o !! "items" = Some (VArr [VObj {[ "_id" := VStr "p-1" ]}])).
    { intros o [= <-]. reflexivity. }
    rewrite <- H in Hitems.
    specialize (Hitems _ eq_refl). vm_compute in Hitems. discriminate.
  - eexists. split; [reflexivity|]. reflexivity.
Qed.

(** ** Cart reconciler *)

(** The loop, field by field: a property the cart and the patch both own
    takes the value of the patch; every other property of the cart stays,
    and nothing is added. *)
Lemma reconcile_lookup (cart cartNew : gmap string value) (p : string) :
  reconcile cart cartNew !! p =
  match cart !! p, cartNew !! p with
  | Some _, Some v => Some v
  | old, _ => old
  end.
Proof.
  unfold reconcile. revert p.
  apply (map_fold_weak_ind
           (fun acc patch => forall p,
              acc !! p = match cart !! p, patch !! p with
                         | Some _, Some v => Some v
                         | old, _ => old
                         end)).
  - intros p. rewrite lookup_empty. destruct (cart !! p); reflexivity.
  - intros i x patch acc Hfresh IH p.
    assert (Hi : acc !! i = cart !! i).
    { rewrite IH, Hfresh. destruct (cart !! i); reflexivity. }
    destruct (decide (i = p)) as [->|Hne].
    + rewrite lookup_insert_eq.
      case_decide as Hown.
      * rewrite lookup_insert_eq. rewrite Hi in Hown.
        destruct Hown as [old ->]. reflexivity.
      * rewrite Hi in *. destruct (cart !! p) as [old|]; [|reflexivity].
        exfalso. apply Hown. eauto.
    + rewrite (lookup_insert_ne patch) by assumption.
      case_decide; [rewrite lookup_insert_ne by assumption|]; apply IH.
Qed.

Section ReconcilerFacts.
Variable adapter_updateById : value -> gmap string value -> result value.
Variable transformDocuments : value -> value.

Lemma updateMyCart_cart_after (cartNew : gmap string value)
    (r : resolved (gmap string value)) (now : Z) (cart : gmap string value) :
  first_cart r = Some cart ->
  cart_after (updateMyCart adapter_updateById transformDocuments cartNew r now)
  = Some (<["dateUpdated" := VDate now]> (reconcile cart cartNew)).
Proof.
  intros Hr. unfold updateMyCart, save. rewrite Hr.
  destruct (adapter_updateById _ _); reflexivity.
Qed.

(** C6: the reconciled cart [cart'] has [dateUpdated] set to now; every
    other field that the cart and the patch both own has the patch's value; a
    field of the cart that the patch does not own keeps its value; a field
    the cart does not own is not added; and a patch with the single field
    [user], on a cart that owns [user], changes [user] and leaves [items],
    [hash] and [ip] as they were.  The reconciled cart is what is written. *)
Theorem updateMyCart_overwrites_shared_fields (cartNew : gmap string value)
    (r : resolved (gmap string value)) (now : Z) (cart : gmap string value) :
  first_cart r = Some cart ->
  exists cart' : gmap string value,
    cart_after (updateMyCart adapter_updateById transformDocuments cartNew r now)
      = Some cart'
    /\ (exists after,
          calls (updateMyCart adapter_updateById transformDocuments cartNew r now)
          = UpdateById (get cart' "_id") (prepareForUpdate cart') :: after)
    /\ cart' !! "dateUpdated" = Some (VDate now)
    /\ (forall p v, p <> "dateUpdated" ->
          is_Some (cart !! p) -> cartNew !! p = Some v -> cart' !! p = Some v)
    /\ (forall p, p <> "dateUpdated" ->
          cartNew !! p = None -> cart' !! p = cart !! p)
    /\ (forall p, p <> "dateUpdated" -> cart !! p = None -> cart' !! p = None)
    /\ (forall u, cartNew = {[ "user" := u ]} -> is_Some (cart !! "user") ->
          cart' !! "user" = Some u
          /\ cart' !! "items" = cart !! "items"
          /\ cart' !! "hash" = cart !! "hash"
          /\ cart' !! "ip" = cart !! "ip").
Proof.
  intros Hr.
  exists (<["dateUpdated" := VDate now]> (reconcile cart cartNew)).
  assert (Hother : forall p, p <> "dateUpdated" ->
            <["dateUpdated" := VDate now]> (reconcile cart cartNew) !! p =
            match cart !! p, cartNew !! p with
            | Some _, Some v => Some v
            | old, _ => old
            end).
  { intros p Hp. rewrite lookup_insert_ne by congruence. apply reconcile_lookup. }
  split; [apply updateMyCart_cart_after; assumption|].
  split.
  { unfold updateMyCart, save. rewrite Hr.
    destruct (adapter_updateById _ _); eexists; reflexivity. }
  split; [apply lookup_insert_eq|].
  split.
  { intros p v Hp [old Hold] Hnew. rewrite Hother, Hold, Hnew by assumption.
    reflexivity. }
  split.
  { intros p Hp Hnew. rewrite Hother, Hnew by assumption.
    destruct (cart !! p); reflexivity. }
  split.
  { intros p Hp Hold. rewrite Hother, Hold by assumption. reflexivity. }
  intros u -> [old Hold].
  repeat split.
  - rewrite Hother, Hold by discriminate. rewrite lookup_singleton_eq. reflexivity.
  - rewrite Hother by discriminate.
    rewrite lookup_singleton_ne by discriminate. destruct (cart !! "items"); reflexivity.
  - rewrite Hother by discriminate.
    rewrite lookup_singleton_ne by discriminate. destruct (cart !! "hash"); reflexivity.
  - rewrite Hother by discriminate.
    rewrite lookup_singleton_ne by discriminate. destruct (cart !! "ip"); reflexivity.
Qed.
End ReconcilerFacts.

Lemma updateMyCart_overwrites_shared_fields_witness :
  exists cart' : gmap string value,
    cart_after (updateMyCart echo_updateById plain_transform
                  {[ "user" := VStr "u2" ]} (ROne cart_fields) 9) = Some cart'
    /\ cart' !! "user" = Some (VStr "u2")
    /\ cart' !! "items" = cart_fields !! "items".
Proof.
  destruct (updateMyCart_overwrites_shared_fields echo_updateById plain_transform
              {[ "user" := VStr "u2" ]} (ROne cart_fields) 9 cart_fields eq_refl)
    as (cart' & Hafter & _ & _ & _ & _ & _ & Huser).
  exists cart'. split; [exact Hafter|].
  destruct (Huser (VStr "u2") eq_refl) as (Hu & Hi & _).
  - exists (VStr "u1"). reflexivity.
  - split; assumption.
Defined.

(** The reconciler lets a patch overwrite [_id]: with the patch
    [{ _id: null }] the cart is written under the id [null], and the
    payload carries [_id]. *)
Example updateMyCart_writes_null_id :
  calls (updateMyCart echo_updateById plain_transform
           {[ "_id" := VNull ]} (ROne cart_fields) 9) !! 0%nat
  = Some (UpdateById VNull
            (prepareForUpdate
               (<["dateUpdated" := VDate 9]> (<["_id" := VNull]> cart_fields))))
  /\ payload (prepareForUpdate
               (<["dateUpdated" := VDate 9]> (<["_id" := VNull]> cart_fields)))
       !! "_id" = Some VNull.
Proof.
  split.
  - unfold updateMyCart, save. simpl first_cart. cbv beta iota zeta.
    assert (Hrec : reconcile cart_fields {[ "_id" := VNull ]}
                   = <["_id" := VNull]> cart_fields).
    { apply map_eq. intros p. rewrite reconcile_lookup.
      destruct (decide (p = "_id")) as [->|Hp].
      - rewrite lookup_singleton_eq, lookup_insert_eq. reflexivity.
      - rewrite lookup_singleton_ne, lookup_insert_ne by congruence.
        destruct (cart_fields !! p); reflexivity. }
    rewrite Hrec. reflexivity.
  - vm_compute. reflexivity.
Qed.

(** ** Item merge engine *)

Section MergeFacts.
Context {Line Answer : Type}.
Variable addCartItemRequirements : AddParams.t -> option Product.t -> Line.
Variable addToCart : AddParams.t -> Line -> result Answer.

(** C3: when the requested amount exceeds the stock level, a subscription
    or digital product is rejected if its stock level is above [-1], and
    goes on to the merge with the amount set to [1] if its stock level is
    [-1]; any other product is rejected. *)
Theorem add_insufficient_stock (params : AddParams.t) (product : Product.t)
    (others : list Product.t) (stock : Z) :
  Product.stockAmount product = Some stock ->
  stock < AddParams.amount params ->
  let clamped := AddParams.with_amount 1 params in
  let rejected : result Answer :=
    Throw (MoleculerClientError "Requested amount is not available") in
  (subscription_or_digital product = true -> -1 < stock ->
     add addCartItemRequirements addToCart params (Some (product :: others))
     = rejected)
  /\ (subscription_or_digital product = true -> stock = -1 ->
        AddParams.amount clamped = 1
        /\ add addCartItemRequirements addToCart params (Some (product :: others))
           = addToCart clamped (addCartItemRequirements clamped (Some product)))
  /\ (subscription_or_digital product = false ->
        add addCartItemRequirements addToCart params (Some (product :: others))
        = rejected).
Proof.
  intros Hstock Hexceeds clamped rejected.
  unfold add, check_amount. rewrite Hstock.
  assert (Hlt : (stock <? AddParams.amount params) = true) by lia.
  rewrite Hlt.
  split; [|split].
  - intros -> Hfinite.
    assert (Hf : (-1 <? stock) = true) by lia. rewrite Hf. reflexivity.
  - intros -> ->. split; reflexivity.
  - intros ->. reflexivity.
Qed.
End MergeFacts.

Lemma add_insufficient_stock_witness :
  add plain_requirements amount_added
      (AddParams.Make "prod-sub" 5 None) (Some [subscription]) = Ok 1
  /\ add plain_requirements amount_added
       (AddParams.Make "prod-ebook" 5 None) (Some [ebook])
     = Throw (MoleculerClientError "Requested amount is not available")
  /\ add plain_requirements amount_added
       (AddParams.Make "prod-chair" 5 None) (Some [chair])
     = Throw (MoleculerClientError "Requested amount is not available").
Proof.
  split; [|split].
  - destruct (add_insufficient_stock plain_requirements amount_added
                (AddParams.Make "prod-sub" 5 None) subscription [] (-1)
                eq_refl ltac:(simpl; lia)) as (_ & Hclamp & _).
    destruct (Hclamp eq_refl eq_refl) as [_ ->]. reflexivity.
  - destruct (add_insufficient_stock plain_requirements amount_added
                (AddParams.Make "prod-ebook" 5 None) ebook [] 1
                eq_refl ltac:(simpl; lia)) as (Hfinite & _ & _).
    apply Hfinite; [reflexivity | lia].
  - destruct (add_insufficient_stock plain_requirements amount_added
                (AddParams.Make "prod-chair" 5 None) chair [] 2
                eq_refl ltac:(simpl; lia)) as (_ & _ & Hphysical).
    apply Hphysical. reflexivity.
Defined.

(** ** Item mutation engine *)

(** *** The search loop and the list operations *)

Lemma productInCart_Some (itemId : string) (items : list CartItem.t) (i : nat) :
  productInCart itemId items = Some i ->
  exists item, items !! i = Some item /\ CartItem._id item = itemId.
Proof.
  revert i. induction items as [|item items IH]; intros i; simpl.
  - discriminate.
  - destruct (String.eqb (CartItem._id item) itemId) eqn:Heq.
    + intros [= <-]. exists item. split; [reflexivity|].
      apply String.eqb_eq. assumption.
    + destruct (productInCart itemId items) as [j|]; simpl; [|discriminate].
      intros [= <-]. apply IH. reflexivity.
Qed.

Lemma alter_at {A : Type} (f : A -> A) (l : list A) (i : nat) (x : A) :
  l !! i = Some x -> alter f i l = take i l ++ f x :: drop (S i) l.
Proof.
  revert i. induction l as [|y l IH]; intros [|i] H; simplify_eq/=.
  - reflexivity.
  - f_equal. apply IH. assumption.
Qed.

Lemma delete_alter {A : Type} (f : A -> A) (l : list A) (i : nat) :
  delete i (alter f i l) = delete i l.
Proof.
  revert i. induction l as [|y l IH]; intros [|i]; simpl; try reflexivity.
  f_equal. apply IH.
Qed.

Lemma truthy_id_valid (params : Params.t) (itemId : string) :
  Params.valid params = true ->
  Params.itemId params = Some itemId ->
  truthy_id (Params.itemId params) = Some itemId.
Proof.
  unfold Params.valid. intros Hvalid Hid. rewrite Hid in *. simpl.
  apply andb_prop in Hvalid as [Hlen _].
  destruct itemId; [simpl in Hlen; discriminate|reflexivity].
Qed.

Lemma positive_amount_pos (a : Z) :
  0 < a -> positive_amount (Params.Number a) = Some a.
Proof.
  intros Ha. unfold positive_amount.
  assert (Hz : (a =? 0) = false) by lia.
  assert (Hp : (0 <? a) = true) by lia.
  rewrite Hz, Hp. reflexivity.
Qed.

Lemma valid_amount_pos (params : Params.t) (a : Z) :
  Params.valid params = true -> Params.amount params = Params.Number a -> 0 < a.
Proof.
  unfold Params.valid. intros Hvalid Ha. rewrite Ha in Hvalid.
  apply andb_prop in Hvalid as [_ Hpos]. lia.
Qed.

(** After the default of the action, a validated amount is [null] or a
    positive number. *)
Lemma amount_or_1_valid (params : Params.t) :
  Params.valid params = true ->
  Params.amount_or_1 params = Params.Null
  \/ exists a, Params.amount_or_1 params = Params.Number a /\ 0 < a.
Proof.
  intros Hvalid. unfold Params.amount_or_1.
  destruct (Params.amount params) as [| |a] eqn:Ha.
  - right. exists 1. split; [reflexivity | lia].
  - left. reflexivity.
  - right. exists a. split; [reflexivity|].
    eapply valid_amount_pos; eassumption.
Qed.

(** A positive amount that the loop writes is the number it was given. *)
Lemma positive_amount_Some (amount : Params.amount_t) (a : Z) :
  positive_amount amount = Some a -> amount = Params.Number a /\ 0 < a.
Proof.
  destruct amount as [| |n]; simpl; try discriminate.
  destruct (negb (n =? 0) && (0 <? n)) eqn:Hb; [|discriminate].
  intros [= <-]. apply andb_prop in Hb as [_ Hb]. split; [reflexivity | lia].
Qed.

(** *** [delete] *)

Lemma delete_from_found (params : Params.t) (items : list CartItem.t)
    (itemId : string) (i : nat) (item : CartItem.t) :
  Params.valid params = true ->
  Params.itemId params = Some itemId ->
  productInCart itemId items = Some i ->
  items !! i = Some item ->
  delete_from params items =
  take i items
  ++ match Params.amount params with
     | Params.Number a =>
         if CartItem.amount item - a <=? 0 then []
         else [CartItem.with_amount (CartItem.amount item - a) item]
     | Params.Missing | Params.Null => []
     end
  ++ drop (S i) items.
Proof.
  intros Hvalid Hid Hfind Hitem. unfold delete_from.
  rewrite (truthy_id_valid _ _ Hvalid Hid), Hfind.
  destruct (Params.amount params) as [| |a] eqn:Ha.
  - simpl. apply delete_take_drop.
  - simpl. apply delete_take_drop.
  - rewrite (positive_amount_pos a) by (eapply valid_amount_pos; eassumption).
    rewrite list_lookup_alter_eq, Hitem. simpl.
    destruct (CartItem.amount item - a <=? 0).
    + rewrite delete_alter. apply delete_take_drop.
    + rewrite (alter_at _ _ _ _ Hitem). reflexivity.
Qed.

Lemma delete_from_not_found (params : Params.t) (items : list CartItem.t)
    (itemId : string) :
  Params.valid params = true ->
  Params.itemId params = Some itemId ->
  productInCart itemId items = None ->
  delete_from params items = items.
Proof.
  intros Hvalid Hid Hfind. unfold delete_from.
  rewrite (truthy_id_valid _ _ Hvalid Hid), Hfind. reflexivity.
Qed.

(** *** [updateCartItemAmount] *)

Lemma set_amount_found (itemId : string) (a : Z) (items : list CartItem.t)
    (i : nat) :
  itemId <> "" -> 0 < a ->
  productInCart itemId items = Some i ->
  set_amount (Some itemId) (Params.Number a) items =
  (alter (fun item =>
            CartItem.with_amount (if CartItem.has_requirements item then 1 else a) item)
         i items,
   Ok tt).
Proof.
  intros Hid Ha Hfind. unfold set_amount, truthy_id.
  destruct (String.eqb itemId "") eqn:He;
    [apply String.eqb_eq in He; contradiction|].
  rewrite Hfind, (positive_amount_pos a Ha).
  destruct (productInCart_Some _ _ _ Hfind) as (item & Hitem & _).
  rewrite list_lookup_alter_eq, Hitem. simpl.
  assert (Hle : (a <=? 0) = false) by lia. rewrite Hle.
  rewrite list_lookup_alter_eq, Hitem. simpl.
  change (CartItem.has_requirements (CartItem.with_amount a item))
    with (CartItem.has_requirements item).
  destruct (CartItem.has_requirements item) eqn:Hreq; f_equal.
  - rewrite list_alter_alter_eq.
    apply list_alter_ext; [|reflexivity].
    intros x Hx. rewrite Hitem in Hx. injection Hx as <-.
    simpl. rewrite Hreq. reflexivity.
  - apply list_alter_ext; [|reflexivity].
    intros x Hx. rewrite Hitem in Hx. injection Hx as <-.
    rewrite Hreq. reflexivity.
Qed.

(** For every request the loop ends without throwing, and what it leaves
    has the lines of the cart, in their order, each with its [_id]: the
    amount it writes has passed [amount>0], so the removal cannot fire. *)
Lemma set_amount_shape (itemId : option string) (amount : Params.amount_t)
    (items : list CartItem.t) :
  exists items',
    set_amount itemId amount items = (items', Ok tt)
    /\ length items' = length items
    /\ CartItem._id <$> items' = CartItem._id <$> items.
Proof.
  unfold set_amount.
  destruct (truthy_id itemId) as [id|]; [|eauto].
  destruct (productInCart id items) as [i|] eqn:Hfind; [|eauto].
  destruct (positive_amount amount) as [a|] eqn:Hpos; [|eauto].
  destruct (positive_amount_Some _ _ Hpos) as [_ Ha].
  destruct (productInCart_Some _ _ _ Hfind) as (item & Hitem & _).
  rewrite list_lookup_alter_eq, Hitem. simpl.
  assert (Hle : (a <=? 0) = false) by lia. rewrite Hle.
  rewrite list_lookup_alter_eq, Hitem. simpl.
  assert (Hids : forall f : CartItem.t -> Z,
            CartItem._id <$> alter (fun x => CartItem.with_amount (f x) x) i items
            = CartItem._id <$> items).
  { intros f. rewrite (list_fmap_alter CartItem._id _ (fun x => x)).
    - apply list_alter_id. reflexivity.
    - apply Forall_true. reflexivity. }
  destruct (CartItem.has_requirements _); eexists; (split; [reflexivity|]).
  - rewrite list_alter_alter_eq. split; [apply length_alter|].
    apply (Hids (fun _ => 1)).
  - split; [apply length_alter|]. apply (Hids (fun _ => a)).
Qed.

(** A [null] amount is falsy: the loop changes nothing. *)
Lemma set_amount_null (itemId : option string) (items : list CartItem.t) :
  set_amount itemId Params.Null items = (items, Ok tt).
Proof.
  unfold set_amount.
  destruct (truthy_id itemId) as [id|]; [|reflexivity].
  destruct (productInCart id items); reflexivity.
Qed.

Lemma set_amount_valid (params : Params.t) (items : list CartItem.t) :
  Params.valid params = true ->
  exists items',
    set_amount (Params.itemId params) (Params.amount_or_1 params) items
    = (items', Ok tt)
    /\ length items' = length items
    /\ CartItem._id <$> items' = CartItem._id <$> items.
Proof. intros _. apply set_amount_shape. Qed.

(** The loop of [updateCartItemAmount] removes no line whatever its
    parameters are. *)
Lemma set_amount_never_removes (itemId : option string) (a : Params.amount_t)
    (items : list CartItem.t) :
  length (set_amount itemId a items).1 = length items
  /\ (set_amount itemId a items).2 = Ok tt.
Proof.
  destruct (set_amount_shape itemId a items) as (items' & -> & Hlen & _).
  auto.
Qed.

(** *** The actions *)

Section MutationFacts.
Variable adapter_updateById : value -> gmap string value -> result value.
Variable transformDocuments : value -> value.

Abbreviation cart_delete' := (cart_delete adapter_updateById transformDocuments).
Abbreviation updateCartItemAmount' :=
  (updateCartItemAmount adapter_updateById transformDocuments).
Abbreviation save' := (save Cart.to_object adapter_updateById transformDocuments).

Lemma save_cart_after (kind : string) (cart : Cart.t) :
  cart_after (save' kind cart) = Some cart.
Proof. unfold save. destruct (adapter_updateById _ _); reflexivity. Qed.

Lemma save_calls (kind : string) (cart : Cart.t) :
  exists after,
    calls (save' kind cart)
    = UpdateById (get (Cart.to_object cart) "_id")
                 (prepareForUpdate (Cart.to_object cart)) :: after.
Proof. unfold save. destruct (adapter_updateById _ _); eexists; reflexivity. Qed.

Lemma save_returned (kind : string) (cart : Cart.t) :
  returned (save' kind cart)
  = rmap transformDocuments
      (adapter_updateById (get (Cart.to_object cart) "_id")
                          (prepareForUpdate (Cart.to_object cart))).
Proof. unfold save. destruct (adapter_updateById _ _); reflexivity. Qed.

Lemma cart_delete_nonempty (params : Params.t) (r : resolved Cart.t) (now : Z)
    (cart : Cart.t) (items : list CartItem.t) :
  first_cart r = Some cart ->
  Cart.items cart = Some items ->
  items <> [] ->
  cart_delete' params r now =
  save' "removed"
        (Cart.with_dateUpdated now (Cart.with_items (delete_from params items) cart)).
Proof.
  intros Hr Hitems Hne. unfold cart_delete. rewrite Hr, Hitems.
  destruct items as [|item rest]; [contradiction|reflexivity].
Qed.

Lemma with_items_same (cart : Cart.t) (items : list CartItem.t) :
  Cart.items cart = Some items -> Cart.with_items items cart = cart.
Proof. destruct cart. simpl. intros ->. reflexivity. Qed.

Lemma cart_delete_empty (params : Params.t) (r : resolved Cart.t) (now : Z)
    (cart : Cart.t) :
  first_cart r = Some cart ->
  Cart.items cart = None \/ Cart.items cart = Some [] ->
  cart_delete' params r now = Outcome (Some cart) [] (Ok VUndefined).
Proof.
  intros Hr Hitems. unfold cart_delete. rewrite Hr.
  destruct Hitems as [-> | ->]; reflexivity.
Qed.

Lemma updateCartItemAmount_empty (params : Params.t) (r : resolved Cart.t)
    (now : Z) (cart : Cart.t) :
  first_cart r = Some cart ->
  Cart.items cart = None \/ Cart.items cart = Some [] ->
  updateCartItemAmount' params r now = Outcome (Some cart) [] (Ok VUndefined).
Proof.
  intros Hr Hitems. unfold updateCartItemAmount. rewrite Hr.
  destruct Hitems as [-> | ->]; reflexivity.
Qed.

(** C8: on a cart whose [items] is missing or empty, [delete] and
    [updateCartItemAmount] return [undefined], call neither the storage
    adapter nor the change notification, throw nothing and leave the cart
    as it is. *)
Theorem empty_cart_is_left_alone (params : Params.t) (r : resolved Cart.t)
    (now : Z) (cart : Cart.t) :
  first_cart r = Some cart ->
  Cart.items cart = None \/ Cart.items cart = Some [] ->
  cart_delete' params r now = Outcome (Some cart) [] (Ok VUndefined)
  /\ updateCartItemAmount' params r now = Outcome (Some cart) [] (Ok VUndefined).
Proof.
  intros Hr Hitems. split.
  - apply cart_delete_empty; assumption.
  - apply updateCartItemAmount_empty; assumption.
Qed.

(** C5: when [delete] finds the line of [itemId] at index [i], the items
    of the cart become the lines before [i], then the line with its amount
    decreased when an amount is given and the difference is above zero (no
    line when the difference is zero or less, or when no amount is given),
    then the lines after [i]. *)
Theorem cart_delete_found_line (params : Params.t) (r : resolved Cart.t)
    (now : Z) (cart : Cart.t) (items : list CartItem.t) (itemId : string)
    (i : nat) (item : CartItem.t) :
  Params.valid params = true ->
  first_cart r = Some cart ->
  Cart.items cart = Some items ->
  Params.itemId params = Some itemId ->
  productInCart itemId items = Some i ->
  items !! i = Some item ->
  exists cart',
    cart_after (cart_delete' params r now) = Some cart'
    /\ Cart.items cart' =
       Some (take i items
             ++ match Params.amount params with
                | Params.Number a =>
                    if CartItem.amount item - a <=? 0 then []
                    else [CartItem.with_amount (CartItem.amount item - a) item]
                | Params.Missing | Params.Null => []
                end
             ++ drop (S i) items).
Proof.
  intros Hvalid Hr Hitems Hid Hfind Hitem.
  assert (Hne : items <> []) by (intros ->; discriminate).
  rewrite (cart_delete_nonempty params r now cart items Hr Hitems Hne).
  rewrite save_cart_after. eexists. split; [reflexivity|]. simpl.
  rewrite (delete_from_found params items itemId i item) by assumption.
  reflexivity.
Qed.

(** C7, as the code has it: when [delete] is given an [itemId] that no
    line of a non-empty cart has, the items stay as they are and the action
    throws nothing of its own, but the cart is stamped with the new
    [dateUpdated], written to storage and announced as changed. *)
Theorem cart_delete_unknown_item (params : Params.t) (r : resolved Cart.t)
    (now : Z) (cart : Cart.t) (items : list CartItem.t) (itemId : string) :
  Params.valid params = true ->
  first_cart r = Some cart ->
  Cart.items cart = Some items ->
  items <> [] ->
  Params.itemId params = Some itemId ->
  productInCart itemId items = None ->
  let cart' := Cart.with_dateUpdated now cart in
  cart_delete' params r now = save' "removed" cart'
  /\ cart_after (cart_delete' params r now) = Some cart'
  /\ Cart.items cart' = Some items
  /\ (exists after,
        calls (cart_delete' params r now)
        = UpdateById (get (Cart.to_object cart') "_id")
                     (prepareForUpdate (Cart.to_object cart')) :: after)
  /\ returned (cart_delete' params r now)
     = rmap transformDocuments
         (adapter_updateById (get (Cart.to_object cart') "_id")
                             (prepareForUpdate (Cart.to_object cart'))).
Proof.
  intros Hvalid Hr Hitems Hne Hid Hfind cart'.
  rewrite (cart_delete_nonempty params r now cart items Hr Hitems Hne).
  rewrite (delete_from_not_found params items itemId Hvalid Hid Hfind).
  rewrite (with_items_same cart items Hitems). fold cart'.
  split; [reflexivity|].
  split; [apply save_cart_after|].
  split; [exact Hitems|].
  split; [apply save_calls | apply save_returned].
Qed.

Lemma updateCartItemAmount_nonempty (params : Params.t) (r : resolved Cart.t)
    (now : Z) (cart : Cart.t) (items items' : list CartItem.t) :
  first_cart r = Some cart ->
  Cart.items cart = Some items ->
  items <> [] ->
  set_amount (Params.itemId params) (Params.amount_or_1 params) items
  = (items', Ok tt) ->
  updateCartItemAmount' params r now =
  save' "updated" (Cart.with_dateUpdated now (Cart.with_items items' cart)).
Proof.
  intros Hr Hitems Hne Hset. unfold updateCartItemAmount. rewrite Hr, Hitems.
  destruct items as [|item rest]; [contradiction|]. rewrite Hset. reflexivity.
Qed.

(** C4, as the code has it: when [updateCartItemAmount] finds the line of
    [itemId] and the line has requirements, the line ends with the amount
    [1] for every amount that is a positive number or is missing; a [null]
    amount is falsy for the guard of the loop, which then writes nothing,
    and the line keeps the amount it had. *)
Theorem updateCartItemAmount_pins_configured_line (params : Params.t)
    (r : resolved Cart.t) (now : Z) (cart : Cart.t) (items : list CartItem.t)
    (itemId : string) (i : nat) (item : CartItem.t) :
  Params.valid params = true ->
  first_cart r = Some cart ->
  Cart.items cart = Some items ->
  Params.itemId params = Some itemId ->
  productInCart itemId items = Some i ->
  items !! i = Some item ->
  CartItem.has_requirements item = true ->
  exists cart' items',
    cart_after (updateCartItemAmount' params r now) = Some cart'
    /\ Cart.items cart' = Some items'
    /\ items' !! i =
       Some match Params.amount params with
            | Params.Null => item
            | Params.Missing | Params.Number _ => CartItem.with_amount 1 item
            end.
Proof.
  intros Hvalid Hr Hitems Hid Hfind Hitem Hreq.
  assert (Hne : items <> []) by (intros ->; discriminate).
  pose proof (truthy_id_valid _ _ Hvalid Hid) as Htruthy. rewrite Hid in Htruthy.
  assert (Hid' : itemId <> "") by (intros ->; discriminate).
  assert (Hpinned : forall a, 0 < a ->
            Params.amount_or_1 params = Params.Number a ->
            exists cart' items',
              cart_after (updateCartItemAmount' params r now) = Some cart'
              /\ Cart.items cart' = Some items'
              /\ items' !! i = Some (CartItem.with_amount 1 item)).
  { intros a Ha Hamount.
    pose proof (set_amount_found itemId a items i Hid' Ha Hfind) as Hset.
    rewrite <- Hid, <- Hamount in Hset.
    rewrite (updateCartItemAmount_nonempty params r now cart items _
               Hr Hitems Hne Hset).
    rewrite save_cart_after. eexists. eexists.
    split; [reflexivity|]. split; [reflexivity|].
    rewrite list_lookup_alter_eq, Hitem. simpl. rewrite Hreq. reflexivity. }
  destruct (Params.amount params) as [| |a] eqn:Hamount.
  - apply (Hpinned 1); [lia|].
    unfold Params.amount_or_1. rewrite Hamount. reflexivity.
  - pose proof (set_amount_null (Params.itemId params) items) as Hset.
    assert (Hnull : Params.amount_or_1 params = Params.Null).
    { unfold Params.amount_or_1. rewrite Hamount. reflexivity. }
    rewrite <- Hnull in Hset.
    rewrite (updateCartItemAmount_nonempty params r now cart items _
               Hr Hitems Hne Hset).
    rewrite save_cart_after. eexists. exists items.
    split; [reflexivity|]. split; [reflexivity | exact Hitem].
  - apply (Hpinned a); [eapply valid_amount_pos; eassumption|].
    unfold Params.amount_or_1. rewrite Hamount. reflexivity.
Qed.

(** C10: with parameters that pass the schema of the action, the loop of
    [updateCartItemAmount] ends without throwing and removes no line: the
    items of the cart after the call are as many as before, with the same
    [_id]s in the same order. *)
Theorem updateCartItemAmount_keeps_every_line (params : Params.t)
    (r : resolved Cart.t) (now : Z) (cart : Cart.t) (items : list CartItem.t) :
  Params.valid params = true ->
  first_cart r = Some cart ->
  Cart.items cart = Some items ->
  exists cart' items',
    set_amount (Params.itemId params) (Params.amount_or_1 params) items
    = (items', Ok tt)
    /\ cart_after (updateCartItemAmount' params r now) = Some cart'
    /\ Cart.items cart' = Some items'
    /\ length items' = length items
    /\ CartItem._id <$> items' = CartItem._id <$> items.
Proof.
  intros Hvalid Hr Hitems.
  destruct (set_amount_valid params items Hvalid) as (items' & Hset & Hlen & Hids).
  destruct items as [|item items].
  - rewrite (updateCartItemAmount_empty params r now cart Hr)
      by (right; assumption).
    destruct items'; [|discriminate].
    exists cart, []. auto.
  - rewrite (updateCartItemAmount_nonempty params r now cart (item :: items) items'
               Hr Hitems ltac:(discriminate) Hset).
    rewrite save_cart_after. eexists. exists items'. auto.
Qed.
End MutationFacts.

Lemma empty_cart_is_left_alone_witness :
  cart_delete echo_updateById plain_transform
    (Params.Make (Some "prod-chair") Params.Missing) (ROne empty_cart) 9
  = Outcome (Some empty_cart) [] (Ok VUndefined)
  /\ updateCartItemAmount echo_updateById plain_transform
       (Params.Make (Some "prod-chair") (Params.Number 4)) (ROne empty_cart) 9
     = Outcome (Some empty_cart) [] (Ok VUndefined).
Proof.
  split.
  - apply (empty_cart_is_left_alone echo_updateById plain_transform
             (Params.Make (Some "prod-chair") Params.Missing) (ROne empty_cart) 9
             empty_cart eq_refl (or_intror eq_refl)).
  - apply (empty_cart_is_left_alone echo_updateById plain_transform
             (Params.Make (Some "prod-chair") (Params.Number 4)) (ROne empty_cart) 9
             empty_cart eq_refl (or_intror eq_refl)).
Defined.

Lemma cart_delete_found_line_witness :
  (exists cart',
     cart_after (cart_delete echo_updateById plain_transform
                   (Params.Make (Some "prod-chair") (Params.Number 2)) (ROne typed_cart) 9)
     = Some cart'
     /\ Cart.items cart' = Some [CartItem.with_amount 3 chair_line; mug_line])
  /\ (exists cart',
        cart_after (cart_delete echo_updateById plain_transform
                      (Params.Make (Some "prod-chair") (Params.Number 5)) (ROne typed_cart) 9)
        = Some cart'
        /\ Cart.items cart' = Some [mug_line])
  /\ (exists cart',
        cart_after (cart_delete echo_updateById plain_transform
                      (Params.Make (Some "prod-mug") Params.Missing) (ROne typed_cart) 9)
        = Some cart'
        /\ Cart.items cart' = Some [chair_line]).
Proof.
  split; [|split].
  - exact (cart_delete_found_line echo_updateById plain_transform
             (Params.Make (Some "prod-chair") (Params.Number 2)) (ROne typed_cart) 9
             typed_cart [chair_line; mug_line] "prod-chair" 0%nat chair_line
             eq_refl eq_refl eq_refl eq_refl eq_refl eq_refl).
  - exact (cart_delete_found_line echo_updateById plain_transform
             (Params.Make (Some "prod-chair") (Params.Number 5)) (ROne typed_cart) 9
             typed_cart [chair_line; mug_line] "prod-chair" 0%nat chair_line
             eq_refl eq_refl eq_refl eq_refl eq_refl eq_refl).
  - exact (cart_delete_found_line echo_updateById plain_transform
             (Params.Make (Some "prod-mug") Params.Missing) (ROne typed_cart) 9
             typed_cart [chair_line; mug_line] "prod-mug" 1%nat mug_line
             eq_refl eq_refl eq_refl eq_refl eq_refl eq_refl).
Defined.

Lemma cart_delete_unknown_item_witness :
  cart_after (cart_delete echo_updateById plain_transform
                (Params.Make (Some "prod-none") Params.Missing) (ROne typed_cart) 9)
  = Some (Cart.with_dateUpdated 9 typed_cart)
  /\ Cart.items (Cart.with_dateUpdated 9 typed_cart) = Some [chair_line; mug_line].
Proof.
  destruct (cart_delete_unknown_item echo_updateById plain_transform
              (Params.Make (Some "prod-none") Params.Missing) (ROne typed_cart) 9
              typed_cart [chair_line; mug_line] "prod-none"
              eq_refl eq_refl eq_refl ltac:(discriminate) eq_refl eq_refl)
    as (_ & Hafter & Hitems & _).
  split; [exact Hafter | exact Hitems].
Defined.

(** C7 fails as stated: deleting an item that the cart does not hold
    leaves a cart that differs from the one before (its [dateUpdated] is
    the time of the call), and the cart is written and announced. *)
Lemma cart_delete_unknown_item_modifies_cart :
  let o :=
    cart_delete echo_updateById plain_transform
      (Params.Make (Some "prod-none") Params.Missing) (ROne typed_cart) 9 in
  cart_after o <> Some typed_cart
  /\ Cart.dateUpdated <$> cart_after o = Some (Some 9)
  /\ Cart.dateUpdated typed_cart = Some 5
  /\ Cart.items <$> cart_after o = Some (Cart.items typed_cart)
  /\ length (calls o) = 2%nat.
Proof.
  cbv zeta.
  assert (Hafter :
    cart_after (cart_delete echo_updateById plain_transform
                  (Params.Make (Some "prod-none") Params.Missing) (ROne typed_cart) 9)
    = Some (Cart.with_dateUpdated 9 typed_cart)) by reflexivity.
  rewrite Hafter.
  repeat split; try reflexivity.
  intros H. discriminate H.
Qed.

Lemma updateCartItemAmount_pins_configured_line_witness :
  exists cart' items',
    cart_after (updateCartItemAmount echo_updateById plain_transform
                  (Params.Make (Some "prod-mug") (Params.Number 7)) (ROne typed_cart) 9)
    = Some cart'
    /\ Cart.items cart' = Some items'
    /\ items' !! 1%nat = Some (CartItem.with_amount 1 mug_line).
Proof.
  exact (updateCartItemAmount_pins_configured_line echo_updateById plain_transform
           (Params.Make (Some "prod-mug") (Params.Number 7)) (ROne typed_cart) 9
           typed_cart [chair_line; mug_line] "prod-mug" 1%nat mug_line
           eq_refl eq_refl eq_refl eq_refl eq_refl eq_refl eq_refl).
Defined.

(** C4 fails as stated: a request with the amount [null] passes the
    schema and finds the line of the mug, which has requirements, and the
    line still has the amount [3] after the call. *)
Lemma updateCartItemAmount_null_amount_skips_pin :
  let params := Params.Make (Some "prod-mug") Params.Null in
  let o :=
    updateCartItemAmount echo_updateById plain_transform params
      (ROne typed_cart) 9 in
  Params.valid params = true
  /\ productInCart "prod-mug" [chair_line; mug_line] = Some 1%nat
  /\ CartItem.has_requirements mug_line = true
  /\ Cart.items <$> cart_after o = Some (Some [chair_line; mug_line])
  /\ CartItem.amount mug_line = 3
  /\ CartItem.amount mug_line <> 1.
Proof.
  cbv zeta. repeat split; try reflexivity. discriminate.
Qed.

Lemma updateCartItemAmount_keeps_every_line_witness :
  exists cart' items',
    set_amount (Some "prod-chair") (Params.Number 7) [chair_line; mug_line] = (items', Ok tt)
    /\ cart_after (updateCartItemAmount echo_updateById plain_transform
                     (Params.Make (Some "prod-chair") (Params.Number 7)) (ROne typed_cart) 9)
       = Some cart'
    /\ Cart.items cart' = Some items'
    /\ length items' = 2%nat
    /\ CartItem._id <$> items' = ["prod-chair"; "prod-mug"].
Proof.
  exact (updateCartItemAmount_keeps_every_line echo_updateById plain_transform
           (Params.Make (Some "prod-chair") (Params.Number 7)) (ROne typed_cart) 9
           typed_cart [chair_line; mug_line] eq_refl eq_refl eq_refl).
Defined.

(** ** Retention sweeper *)

Lemma filter_all {A : Type} (f : A -> bool) (l : list A) :
  (forall x, f x = true) -> List.filter f l = l.
Proof.
  intros Hf. induction l as [|x l IH]; simpl; [reflexivity|].
  rewrite Hf, IH. reflexivity.
Qed.

Lemma filter_twice {A : Type} (f g : A -> bool) (l : list A) :
  List.filter f (List.filter g l) = List.filter (fun x => g x && f x) l.
Proof.
  induction l as [|x l IH]; simpl; [reflexivity|].
  destruct (g x); simpl; [destruct (f x)|]; rewrite IH; reflexivity.
Qed.

Lemma promise_all_outcomes {A : Type} (promises : list (result A)) :
  promise_all promises =
  match head (omap (fun p => match p with Throw e => Some e | Ok _ => None end)
                   promises) with
  | Some e => Throw e
  | None =>
      Ok (omap (fun p => match p with Ok a => Some a | Throw _ => None end)
               promises)
  end.
Proof.
  induction promises as [|[a|e] promises IH]; simpl; [reflexivity| |reflexivity].
  rewrite IH. destruct (head _); reflexivity.
Qed.

Section SweeperFacts.
Variable stringify : value -> string.
Variable fails : option string -> option error.
Variable month_before : Z -> Z.

Abbreviation remove_each' := (remove_each stringify fails).
Abbreviation cart_remove' := (cart_remove fails).
Abbreviation removal_outcome' := (removal_outcome stringify fails).

Lemma remove_each_cons (cart : Cart.t) (found store : list Cart.t) :
  remove_each' (cart :: found) store =
  (removal_outcome' cart
     :: (remove_each' found (cart_remove' (Cart._id cart) store).2).1,
   (remove_each' found (cart_remove' (Cart._id cart) store).2).2).
Proof.
  simpl. unfold cart_remove, removal_outcome, removal_message.
  destruct (fails (Cart._id cart)); simpl;
    destruct (remove_each' found _); reflexivity.
Qed.

(** One removal is issued, and one promise made, for each cart found. *)
Lemma remove_each_promises (found store : list Cart.t) :
  (remove_each' found store).1 = removal_outcome' <$> found.
Proof.
  revert store. induction found as [|cart found IH]; intros store.
  - reflexivity.
  - rewrite remove_each_cons. simpl. rewrite IH. reflexivity.
Qed.

(** The store after the loop has lost the carts whose id is that of a
    found cart with a removal that did not fail, and only those. *)
Lemma remove_each_store (found store : list Cart.t) :
  (remove_each' found store).2 =
  List.filter (fun cart => negb (removed_by fails found cart)) store.
Proof.
  revert store. induction found as [|stale found IH]; intros store.
  - simpl. symmetry. apply filter_all. reflexivity.
  - rewrite remove_each_cons. simpl. rewrite IH.
    unfold cart_remove.
    destruct (fails (Cart._id stale)) as [e|] eqn:Hfails; simpl.
    + apply List.filter_ext. intros cart.
      rewrite andb_false_r. reflexivity.
    + rewrite filter_twice. apply List.filter_ext. intros cart.
      rewrite andb_true_r, negb_orb. reflexivity.
Qed.

Lemma first_failure_outcomes (found : list Cart.t) :
  head (omap (fun p => match p with Throw e => Some e | Ok _ => None end)
             (removal_outcome' <$> found))
  = first_failure fails found.
Proof.
  unfold first_failure.
  induction found as [|cart found IH]; simpl; [reflexivity|].
  unfold removal_outcome at 1.
  destruct (fails (Cart._id cart)); simpl; [reflexivity|apply IH].
Qed.

Lemma no_failure_messages (found : list Cart.t) :
  first_failure fails found = None ->
  omap (fun p => match p with Ok a => Some a | Throw _ => None end)
       (removal_outcome' <$> found)
  = removal_message stringify <$> found.
Proof.
  unfold first_failure.
  induction found as [|cart found IH]; simpl; [reflexivity|].
  unfold removal_outcome at 1.
  destruct (fails (Cart._id cart)); simpl; [discriminate|].
  intros H. f_equal. apply IH. exact H.
Qed.

Lemma removed_by_own_removal (found : list Cart.t) (cart : Cart.t) :
  In cart found -> fails (Cart._id cart) = None ->
  removed_by fails found cart = true.
Proof.
  intros Hin Hok. unfold removed_by. apply existsb_exists.
  exists cart. split; [assumption|].
  rewrite Hok, !bool_decide_eq_true_2 by reflexivity. reflexivity.
Qed.

Lemma removed_by_other_id (found : list Cart.t) (cart : Cart.t) :
  (forall stale, In stale found -> Cart._id stale <> Cart._id cart) ->
  removed_by fails found cart = false.
Proof.
  intros Hids. unfold removed_by.
  destruct (existsb _ found) eqn:Hex; [|reflexivity].
  apply existsb_exists in Hex as (stale & Hin & Hsame).
  apply andb_prop in Hsame as [Hsame _].
  apply bool_decide_eq_true_1 in Hsame.
  exfalso. apply (Hids stale Hin). congruence.
Qed.

Lemma first_failure_None (found : list Cart.t) :
  (forall cart, In cart found -> fails (Cart._id cart) = None) ->
  first_failure fails found = None.
Proof.
  unfold first_failure.
  induction found as [|cart found IH]; intros Hok; [reflexivity|].
  simpl. rewrite (Hok cart) by (left; reflexivity).
  apply IH. intros c Hc. apply Hok. right. exact Hc.
Qed.

Lemma first_failure_Some (found : list Cart.t) :
  (exists cart, In cart found /\ fails (Cart._id cart) <> None) ->
  exists e cart,
    first_failure fails found = Some e
    /\ In cart found /\ fails (Cart._id cart) = Some e.
Proof.
  unfold first_failure.
  induction found as [|cart found IH]; intros (c & Hin & Hfails);
    [destruct Hin|].
  simpl. destruct (fails (Cart._id cart)) as [e|] eqn:Hcart.
  - exists e, cart. simpl. auto.
  - destruct Hin as [-> | Hin]; [contradiction|].
    destruct IH as (e & c' & Hfirst & Hin' & He); [eauto|].
    exists e, c'. auto.
Qed.

(** C1, as the code has it: the sweep issues one removal for each cart
    older than the cutoff, whatever the other removals answer, so the store
    loses every such cart whose removal does not fail and keeps every cart
    whose id is not that of a cart found; the result is the list of the
    removal messages, one per cart and in order, when no removal fails, and
    otherwise the rejection of [Promise.all] with the failure of one of the
    removals that failed, no message being reported. *)
Theorem cleanCarts_all_or_rejection (now : Z) (store : list Cart.t) :
  let found := adapter_find (month_before now) store in
  let swept := cleanCarts stringify fails month_before now store in
  ((forall cart, In cart found -> fails (Cart._id cart) = None) ->
   swept.1 = Ok (removal_message stringify <$> found))
  /\ ((exists cart, In cart found /\ fails (Cart._id cart) <> None) ->
      exists e cart,
        In cart found /\ fails (Cart._id cart) = Some e /\ swept.1 = Throw e)
  /\ swept.2 = List.filter (fun cart => negb (removed_by fails found cart)) store
  /\ (forall cart, In cart found -> fails (Cart._id cart) = None ->
        ~ In cart swept.2)
  /\ (forall cart, In cart store ->
        (forall stale, In stale found -> Cart._id stale <> Cart._id cart) ->
        In cart swept.2).
Proof.
  intros found swept.
  assert (Hstore : swept.2 =
            List.filter (fun cart => negb (removed_by fails found cart)) store).
  { unfold swept, cleanCarts. fold found.
    pose proof (remove_each_store found store) as Hstore.
    destruct (remove_each' found store) as [promises store']. exact Hstore. }
  assert (Hresult : swept.1 =
            match first_failure fails found with
            | Some e => Throw e
            | None => Ok (removal_message stringify <$> found)
            end).
  { unfold swept, cleanCarts. fold found.
    pose proof (remove_each_promises found store) as Hpromises.
    destruct (remove_each' found store) as [promises store'].
    simpl in *. subst.
    rewrite promise_all_outcomes, first_failure_outcomes.
    destruct (first_failure fails found) eqn:Hfirst; [reflexivity|].
    rewrite no_failure_messages by assumption. reflexivity. }
  split; [|split; [|split; [exact Hstore|split]]].
  - intros Hok. rewrite Hresult, (first_failure_None found Hok). reflexivity.
  - intros Hfailed.
    destruct (first_failure_Some found Hfailed) as (e & cart & Hfirst & Hin & He).
    exists e, cart. rewrite Hresult, Hfirst. auto.
  - intros cart Hin Hok. rewrite Hstore. intros Hkept.
    apply List.filter_In in Hkept as [_ Hkept].
    rewrite (removed_by_own_removal found cart Hin Hok) in Hkept. discriminate.
  - intros cart Hin Hids. rewrite Hstore.
    apply List.filter_In. split; [assumption|].
    rewrite (removed_by_other_id found cart Hids). reflexivity.
Qed.
End SweeperFacts.

(** C1 fails as stated: with two carts to sweep and the removal of the
    first one failing, the second cart is removed but the result of the
    sweep is the rejection alone, not one outcome per cart. *)
Lemma cleanCarts_failure_hides_outcomes :
  cleanCarts print_id a_fails thirty_days_before 100 [stale_a; stale_b; fresh_c]
  = (Throw (StorageError "remove failed"), [stale_a; fresh_c])
  /\ adapter_find (thirty_days_before 100) [stale_a; stale_b; fresh_c]
     = [stale_a; stale_b]
  /\ forall outcomes : list string,
       (cleanCarts print_id a_fails thirty_days_before 100
          [stale_a; stale_b; fresh_c]).1 <> Ok outcomes.
Proof.
  split; [reflexivity|]. split; [reflexivity|].
  intros outcomes. discriminate.
Qed.

(** The same sweep without the failure reports both removals. *)
Example cleanCarts_reports_each_removal :
  cleanCarts print_id (fun _ => None) thirty_days_before 100
    [stale_a; stale_b; fresh_c]
  = (Ok ["Removed carts: a"; "Removed carts: b"], [fresh_c]).
Proof. reflexivity. Qed.

(** * Further properties of the service *)

(** ** The resolver beyond the shape of the query result *)

Section ResolverMore.
Variable cart_find : value -> result value.
Variable createEmptyCart : meta -> value -> result (value * meta).

(** X1: once [me] has found the cart of a request that carries a cookie,
    a second [me] in the same request returns the same cart and leaves
    [ctx.meta] as it is, whatever the storage and [createEmptyCart] would
    answer then: the bound cart is returned without a query. *)
Theorem me_second_call_uses_cache
    (cart_find' : value -> result value)
    (createEmptyCart' : meta -> value -> result (value * meta))
    (m : meta) (x : value) (others : list value) :
  truthy (cookies_cart m) = true ->
  truthy (meta_cart m) = false ->
  cart_find (cartCookie_of m) = Ok (VArr (x :: others)) ->
  truthy x = true -> is_array x = false ->
  me cart_find createEmptyCart m = (x, Meta (cookies_cart m) x)
  /\ me cart_find' createEmptyCart' (me cart_find createEmptyCart m).2
     = me cart_find createEmptyCart m.
Proof.
  intros Hcookie Hnone Hfound Hx Harr.
  assert (Hfirst : me cart_find createEmptyCart m = (x, Meta (cookies_cart m) x)).
  { rewrite (me_queries_storage cart_find createEmptyCart m _
               ltac:(rewrite Hnone; apply andb_false_r) Hfound).
    simpl. rewrite Hx, Harr. reflexivity. }
  split; [exact Hfirst|].
  rewrite Hfirst. unfold me, cartCookie_of. simpl.
  rewrite Hcookie, Hcookie, Hx. reflexivity.
Qed.

(** X2: a failure of the storage query, or of [createEmptyCart] when no
    cart was found, does not leave [me]: the action answers [undefined] and
    [ctx.meta] is as before. *)
Theorem me_failure_is_undefined (m : meta) :
  truthy (cartCookie_of m) && truthy (meta_cart m) = false ->
  (exists e, cart_find (cartCookie_of m) = Throw e)
  \/ (exists found e,
        cart_find (cartCookie_of m) = Ok found
        /\ (nonempty found = false \/ truthy (first found) = false
            \/ is_array (first found) = true)
        /\ createEmptyCart m (cartCookie_of m) = Throw e) ->
  me cart_find createEmptyCart m = (VUndefined, m).
Proof.
  intros Hcache [[e Hfind] | (found & e & Hfind & Hshape & Hcreate)].
  - unfold me. rewrite Hcache, Hfind. reflexivity.
  - rewrite (me_queries_storage cart_find createEmptyCart m found Hcache Hfind).
    unfold created. rewrite Hcreate.
    destruct Hshape as [Hempty | [Hfalsy | Harr]].
    + destruct found as [| |b|n|s|t|[|y l]|o]; simpl in *;
        rewrite ?andb_false_r; try reflexivity; discriminate.
    + rewrite Hfalsy, andb_false_r. reflexivity.
    + rewrite Harr, andb_false_r. reflexivity.
Qed.

(** X3: a request without a cart cookie never gets the cart bound to
    [ctx.meta.cart]: the storage is asked for the hash [null], and a cart
    found there is returned and bound in place of the one that was. *)
Theorem me_without_cookie_ignores_cache (m : meta) (x : value)
    (others : list value) :
  truthy (cookies_cart m) = false ->
  cart_find VNull = Ok (VArr (x :: others)) ->
  truthy x = true -> is_array x = false ->
  me cart_find createEmptyCart m = (x, Meta (cookies_cart m) x).
Proof.
  intros Hcookie Hfound Hx Harr.
  assert (Hnull : cartCookie_of m = VNull).
  { unfold cartCookie_of. rewrite Hcookie. reflexivity. }
  rewrite (me_queries_storage cart_find createEmptyCart m (VArr (x :: others))).
  - simpl. rewrite Hx, Harr. reflexivity.
  - rewrite Hnull. reflexivity.
  - rewrite Hnull. exact Hfound.
Qed.

(** X4: when the request holds no usable cached cart and the storage
    answers with anything but a sequence that starts with a truthy
    element (an empty sequence, a single record, [null]), [me] answers
    with what [createEmptyCart] makes. *)
Theorem me_creates_cart_when_none_found (m : meta) (found : value) :
  truthy (cartCookie_of m) && truthy (meta_cart m) = false ->
  cart_find (cartCookie_of m) = Ok found ->
  nonempty found = false \/ truthy (first found) = false ->
  me cart_find createEmptyCart m = created createEmptyCart m.
Proof.
  intros Hcache Hfind Hshape.
  rewrite (me_queries_storage cart_find createEmptyCart m found Hcache Hfind).
  destruct Hshape as [Hempty | Hfalsy].
  - destruct found as [| |b|n|s|t|[|y l]|o]; simpl in *;
      rewrite ?andb_false_r; try reflexivity; discriminate.
  - rewrite Hfalsy, andb_false_r. reflexivity.
Qed.
End ResolverMore.

Lemma me_second_call_uses_cache_witness :
  me broken_find (createEmptyCart_spec 8)
     (me one_cart_find (createEmptyCart_spec 7) request).2
  = me one_cart_find (createEmptyCart_spec 7) request.
Proof.
  apply (me_second_call_uses_cache one_cart_find (createEmptyCart_spec 7)
           broken_find (createEmptyCart_spec 8) request stored_cart []);
    reflexivity.
Defined.

Lemma me_failure_is_undefined_witness :
  me broken_find (createEmptyCart_spec 7) request = (VUndefined, request).
Proof.
  apply (me_failure_is_undefined broken_find (createEmptyCart_spec 7) request
           eq_refl).
  left. exists (StorageError "find failed"). reflexivity.
Defined.

Lemma me_without_cookie_ignores_cache_witness :
  me one_cart_find (createEmptyCart_spec 7) (Meta VUndefined (VObj cart_fields))
  = (stored_cart, Meta VUndefined stored_cart).
Proof.
  apply (me_without_cookie_ignores_cache one_cart_find (createEmptyCart_spec 7)
           (Meta VUndefined (VObj cart_fields)) stored_cart []);
    reflexivity.
Defined.

Lemma me_creates_cart_when_none_found_witness :
  me no_cart_find (createEmptyCart_spec 7) request
  = created (createEmptyCart_spec 7) request.
Proof.
  apply (me_creates_cart_when_none_found no_cart_find (createEmptyCart_spec 7)
           request (VArr []) eq_refl eq_refl).
  left. reflexivity.
Defined.

(** ** The availability check beyond the exceeded stock *)

(** What passes the check is the first product of the answer, with the
    parameters of the request where only the amount may have changed, and
    then to [1]; and what passes for a product with a stock level above [-1],
    or for any product that is neither a subscription nor digital, asks for
    no more than the stock. *)
Lemma check_amount_passed (params params' : AddParams.t)
    (found : option (list Product.t)) (product : Product.t) :
  check_amount params found = Ok (params', Some product) ->
  (exists others, found = Some (product :: others))
  /\ AddParams.itemId params' = AddParams.itemId params
  /\ AddParams.requirements params' = AddParams.requirements params
  /\ (AddParams.amount params' = AddParams.amount params
      \/ AddParams.amount params' = 1)
  /\ (forall stock, Product.stockAmount product = Some stock ->
        subscription_or_digital product = false \/ -1 < stock ->
        AddParams.amount params' <= stock).
Proof.
  unfold check_amount.
  destruct found as [[|p others]|]; [discriminate| |discriminate].
  destruct (Product.stockAmount p) as [stock|] eqn:Hstock.
  - destruct (stock <? AddParams.amount params) eqn:Hlt.
    + destruct (subscription_or_digital p) eqn:Hkind; [|discriminate].
      destruct (-1 <? stock) eqn:Hfinite; [discriminate|].
      intros [= <- <-]. rewrite Hstock, Hkind. simpl.
      repeat split; eauto.
      intros stock' [= <-] [Hphysical | Hpos]; [discriminate | lia].
    + intros [= <- <-]. rewrite Hstock.
      repeat split; eauto.
      intros stock' [= <-] _. lia.
  - intros [= <- <-]. rewrite Hstock.
    repeat split; eauto. intros stock' Hs. discriminate.
Qed.

Section MergeMore.
Context {Line Answer : Type}.
Variable addCartItemRequirements : AddParams.t -> option Product.t -> Line.
Variable addToCart : AddParams.t -> Line -> result Answer.

Abbreviation add' := (add addCartItemRequirements addToCart).

(** X5: [add] rejects with "No matching product found" when the product
    lookup answers nothing, but not when it answers an empty sequence: the
    empty sequence goes on to [addCartItemRequirements] and [addToCart] in
    the place of the product, with the parameters untouched. *)
Theorem add_empty_lookup_is_not_rejected (params : AddParams.t) :
  add' params None = Throw (MoleculerClientError "No matching product found")
  /\ add' params (Some []) = addToCart params (addCartItemRequirements params None)
  /\ forall found, add' params found
                   = Throw (MoleculerClientError "No matching product found") ->
       (forall p l, addToCart p l
                    <> Throw (MoleculerClientError "No matching product found")) ->
       found = None.
Proof.
  split; [reflexivity|]. split; [reflexivity|].
  intros found Hrejected Hmerge.
  destruct found as [l|]; [exfalso|reflexivity].
  unfold add in Hrejected.
  destruct (check_amount params (Some l)) as [[params' product]|e] eqn:Hcheck;
    simpl in Hrejected.
  - exact (Hmerge _ _ Hrejected).
  - unfold check_amount in Hcheck.
    destruct l as [|p others]; [discriminate|].
    destruct (Product.stockAmount p) as [stock|]; [|discriminate].
    destruct (stock <? AddParams.amount params); [|discriminate].
    destruct (subscription_or_digital p);
      [destruct (-1 <? stock)|]; congruence.
Qed.

(** X6: a request that asks for no more than the stock level, or for a
    product that has no stock level, passes the check as it is: the amount
    is not changed, whatever the type of the product, and only the first
    product of the answer is looked at. *)
Theorem add_within_stock_goes_on_unchanged (params : AddParams.t)
    (product : Product.t) (others : list Product.t) :
  Product.stockAmount product = None
  \/ (exists stock, Product.stockAmount product = Some stock
                    /\ AddParams.amount params <= stock) ->
  add' params (Some (product :: others))
  = addToCart params (addCartItemRequirements params (Some product)).
Proof.
  intros [Hnone | (stock & Hstock & Hle)]; unfold add, check_amount.
  - rewrite Hnone. reflexivity.
  - rewrite Hstock.
    assert (Hlt : (stock <? AddParams.amount params) = false) by lia.
    rewrite Hlt. reflexivity.
Qed.

(** X7: whenever [add] reaches the merge with a product, the product is the
    first of the lookup, [itemId] and [requirements] are those of the
    request, the amount is that of the request or [1], and for a product
    with a stock level above [-1], or one that is neither a subscription nor
    digital, the amount is within the stock. *)
Theorem add_reaches_merge_within_stock (params : AddParams.t)
    (found : option (list Product.t)) :
  add' params found = Throw (MoleculerClientError "No matching product found")
  \/ add' params found
     = Throw (MoleculerClientError "Requested amount is not available")
  \/ add' params found = addToCart params (addCartItemRequirements params None)
     /\ found = Some []
  \/ exists params' product others,
       found = Some (product :: others)
       /\ add' params found
          = addToCart params' (addCartItemRequirements params' (Some product))
       /\ AddParams.itemId params' = AddParams.itemId params
       /\ AddParams.requirements params' = AddParams.requirements params
       /\ (AddParams.amount params' = AddParams.amount params
           \/ AddParams.amount params' = 1)
       /\ (forall stock, Product.stockAmount product = Some stock ->
             subscription_or_digital product = false \/ -1 < stock ->
             AddParams.amount params' <= stock).
Proof.
  unfold add.
  destruct (check_amount params found) as [[params' [product|]]|e] eqn:Hcheck.
  - right. right. right.
    destruct (check_amount_passed _ _ _ _ Hcheck)
      as ((others & ->) & Hid & Hreq & Hamount & Hstock).
    exists params', product, others. simpl. auto 10.
  - right. right. left. simpl.
    unfold check_amount in Hcheck.
    destruct found as [[|p others]|]; [|exfalso|discriminate].
    + injection Hcheck as <-. auto.
    + destruct (Product.stockAmount p) as [stock|]; [|discriminate].
      destruct (stock <? AddParams.amount params); [|discriminate].
      destruct (subscription_or_digital p);
        [destruct (-1 <? stock)|]; discriminate.
  - simpl. unfold check_amount in Hcheck.
    destruct found as [[|p others]|]; [discriminate| |left; congruence].
    right. left.
    destruct (Product.stockAmount p) as [stock|]; [|discriminate].
    destruct (stock <? AddParams.amount params); [|discriminate].
    destruct (subscription_or_digital p);
      [destruct (-1 <? stock)|]; congruence.
Qed.

(** X8: for a positive amount, a stock level of [-1] or less means
    unlimited for a subscription or digital product, which is then added
    with the amount [1] whatever was asked, and means out of stock for any
    other product, which is then rejected. *)
Theorem add_negative_stock (params : AddParams.t) (product : Product.t)
    (others : list Product.t) (stock : Z) :
  0 < AddParams.amount params ->
  Product.stockAmount product = Some stock ->
  stock <= -1 ->
  add' params (Some (product :: others)) =
  if subscription_or_digital product
  then addToCart (AddParams.with_amount 1 params)
         (addCartItemRequirements (AddParams.with_amount 1 params) (Some product))
  else Throw (MoleculerClientError "Requested amount is not available").
Proof.
  intros Hpos Hstock Hneg. unfold add, check_amount. rewrite Hstock.
  assert (Hlt : (stock <? AddParams.amount params) = true) by lia.
  assert (Hfinite : (-1 <? stock) = false) by lia.
  rewrite Hlt. destruct (subscription_or_digital product); [|reflexivity].
  rewrite Hfinite. reflexivity.
Qed.
End MergeMore.

Lemma add_within_stock_goes_on_unchanged_witness :
  add plain_requirements amount_added
      (AddParams.Make "prod-chair" 2 None) (Some [chair; ebook]) = Ok 2.
Proof.
  rewrite (add_within_stock_goes_on_unchanged plain_requirements amount_added
             (AddParams.Make "prod-chair" 2 None) chair [ebook]).
  - reflexivity.
  - right. exists 2. split; [reflexivity | simpl; lia].
Defined.

Lemma add_negative_stock_witness :
  add plain_requirements amount_added
      (AddParams.Make "prod-sub" 1 None) (Some [subscription]) = Ok 1
  /\ add plain_requirements amount_added
       (AddParams.Make "prod-chair" 1 None)
       (Some [Product.Make "prod-chair" (Some "product") None (Some (-1))])
     = Throw (MoleculerClientError "Requested amount is not available").
Proof.
  split.
  - rewrite (add_negative_stock plain_requirements amount_added
               (AddParams.Make "prod-sub" 1 None) subscription [] (-1));
      [reflexivity | simpl; lia | reflexivity | lia].
  - rewrite (add_negative_stock plain_requirements amount_added
               (AddParams.Make "prod-chair" 1 None)
               (Product.Make "prod-chair" (Some "product") None (Some (-1)))
               [] (-1));
      [reflexivity | simpl; lia | reflexivity | lia].
Defined.

(** ** The mutation loops: what they keep *)

Lemma productInCart_first (itemId : string) (items : list CartItem.t) (i : nat) :
  productInCart itemId items = Some i ->
  forall j item, (j < i)%nat -> items !! j = Some item ->
                 CartItem._id item <> itemId.
Proof.
  revert i. induction items as [|x items IH]; intros i; simpl; [discriminate|].
  destruct (String.eqb (CartItem._id x) itemId) eqn:Heq.
  - intros [= <-] j item Hj. lia.
  - destruct (productInCart itemId items) as [k|]; simpl; [|discriminate].
    intros [= <-] [|j] item Hj Hitem; simpl in Hitem.
    + injection Hitem as <-. apply String.eqb_neq. assumption.
    + apply (IH k eq_refl j item); [lia | assumption].
Qed.

Lemma productInCart_None (itemId : string) (items : list CartItem.t) :
  productInCart itemId items = None ->
  Forall (fun item => CartItem._id item <> itemId) items.
Proof.
  induction items as [|x items IH]; simpl; [constructor|].
  destruct (String.eqb (CartItem._id x) itemId) eqn:Heq; [discriminate|].
  destruct (productInCart itemId items); simpl; [discriminate|].
  intros _. constructor; [apply String.eqb_neq; assumption | apply IH; reflexivity].
Qed.

(** X27: the search loop of [delete] and [updateCartItemAmount] stops at
    the first line whose [_id] is the one asked for: the index it gives is
    that of a line with this [_id], no line before it has it, and it gives
    no index only when no line of the cart has it. *)
Theorem productInCart_first_match (itemId : string) (items : list CartItem.t) :
  match productInCart itemId items with
  | Some i =>
      (exists item, items !! i = Some item /\ CartItem._id item = itemId)
      /\ (forall j item, (j < i)%nat -> items !! j = Some item ->
                         CartItem._id item <> itemId)
  | None => Forall (fun item => CartItem._id item <> itemId) items
  end.
Proof.
  destruct (productInCart itemId items) as [i|] eqn:Hfind.
  - split.
    + apply productInCart_Some. assumption.
    + apply productInCart_first. assumption.
  - apply productInCart_None. assumption.
Qed.

(** The search sees only the [_id]s of the lines. *)
Lemma productInCart_ids (itemId : string) (items items' : list CartItem.t) :
  CartItem._id <$> items' = CartItem._id <$> items ->
  productInCart itemId items' = productInCart itemId items.
Proof.
  revert items'. induction items as [|x items IH]; intros [|x' items'] Hids;
    simplify_eq/=; [reflexivity|].
  rewrite H. destruct (String.eqb _ _); [reflexivity|].
  rewrite (IH items') by assumption. reflexivity.
Qed.

Lemma alter_amount_ids (f : CartItem.t -> Z) (i : nat) (items : list CartItem.t) :
  CartItem._id <$> alter (fun item => CartItem.with_amount (f item) item) i items
  = CartItem._id <$> items.
Proof.
  rewrite (list_fmap_alter CartItem._id _ (fun x => x)).
  - apply list_alter_id. reflexivity.
  - apply Forall_true. reflexivity.
Qed.

(** X9: [delete] removes lines and adds none: for every request, the
    [_id]s of the lines it leaves are, in their order, among the [_id]s of
    the lines it was given, and at most one line is missing when the
    request names an item. *)
Theorem delete_from_removes_only (params : Params.t) (items : list CartItem.t) :
  (CartItem._id <$> delete_from params items) `sublist_of` (CartItem._id <$> items)
  /\ (forall itemId, truthy_id (Params.itemId params) = Some itemId ->
        (length items <= S (length (delete_from params items)))%nat).
Proof.
  unfold delete_from.
  destruct (truthy_id (Params.itemId params)) as [itemId|];
    [|split; [apply sublist_nil_l | discriminate]].
  destruct (productInCart itemId items) as [i|] eqn:Hfind;
    [|split; [reflexivity | intros; lia]].
  destruct (productInCart_Some _ _ _ Hfind) as (item & Hitem & _).
  pose proof (lookup_lt_Some _ _ _ Hitem) as Hlt.
  assert (Hdel : forall l : list CartItem.t,
            CartItem._id <$> l = CartItem._id <$> items ->
            length l = length items ->
            (CartItem._id <$> delete i l) `sublist_of` (CartItem._id <$> items)
            /\ (length items <= S (length (delete i l)))%nat).
  { intros l Hids Hlen. rewrite list_fmap_delete, Hids. split.
    - apply sublist_delete.
    - rewrite length_delete by (apply lookup_lt_is_Some_2; lia). lia. }
  assert (Hsame : forall l : list CartItem.t,
            CartItem._id <$> l = CartItem._id <$> items ->
            length l = length items ->
            (CartItem._id <$> l) `sublist_of` (CartItem._id <$> items)
            /\ (length items <= S (length l))%nat).
  { intros l -> ->. split; [reflexivity | lia]. }
  destruct (positive_amount (Params.amount params)) as [a|].
  - rewrite list_lookup_alter_eq, Hitem. simpl.
    pose proof (alter_amount_ids (fun item => CartItem.amount item - a) i items)
      as Hids.
    pose proof (length_alter
                  (fun item => CartItem.with_amount (CartItem.amount item - a) item)
                  items i) as Hlen.
    destruct (CartItem.amount item - a <=? 0).
    + destruct (Hdel _ Hids Hlen). split; [assumption | intros; assumption].
    + destruct (Hsame _ Hids Hlen). split; [assumption | intros; assumption].
  - destruct (Hdel items eq_refl eq_refl). split; [assumption | intros; assumption].
Qed.

(** X10: both loops keep the amounts positive: if every line of the cart
    has a positive amount before [delete] or [updateCartItemAmount], every
    line left has one after, for every request, validated or not. *)
Theorem mutation_keeps_amounts_positive (params : Params.t) (itemId : option string)
    (a : Params.amount_t) (items : list CartItem.t) :
  Forall (fun item => 0 < CartItem.amount item) items ->
  Forall (fun item => 0 < CartItem.amount item) (delete_from params items)
  /\ Forall (fun item => 0 < CartItem.amount item) (set_amount itemId a items).1.
Proof.
  intros Hpos. split.
  - unfold delete_from.
    destruct (truthy_id (Params.itemId params)) as [id|]; [|constructor].
    destruct (productInCart id items) as [i|] eqn:Hfind; [|assumption].
    destruct (productInCart_Some _ _ _ Hfind) as (item & Hitem & _).
    destruct (positive_amount (Params.amount params)) as [d|];
      [|apply Forall_delete; assumption].
    rewrite list_lookup_alter_eq, Hitem. simpl.
    destruct (CartItem.amount item - d <=? 0) eqn:Hle.
    + rewrite delete_alter. apply Forall_delete. assumption.
    + apply Forall_alter; [assumption|].
      intros x Hx _. rewrite Hitem in Hx. injection Hx as <-. simpl. lia.
  - unfold set_amount.
    destruct (truthy_id itemId) as [id|]; [|assumption].
    destruct (productInCart id items) as [i|] eqn:Hfind; [|assumption].
    destruct (productInCart_Some _ _ _ Hfind) as (item & Hitem & _).
    destruct (positive_amount a) as [a'|] eqn:Ha; [|assumption].
    destruct (positive_amount_Some _ _ Ha) as [_ Ha'].
    rewrite list_lookup_alter_eq, Hitem. simpl.
    assert (Hle : (a' <=? 0) = false) by lia. rewrite Hle.
    rewrite list_lookup_alter_eq, Hitem. simpl.
    assert (Hset : Forall (fun item => 0 < CartItem.amount item)
                     (alter (CartItem.with_amount a') i items)).
    { apply Forall_alter; [assumption|]. intros x _ _. exact Ha'. }
    destruct (CartItem.has_requirements _); simpl; [|assumption].
    apply Forall_alter; [assumption|]. intros x _ _. simpl. lia.
Qed.

(** X11: [updateCartItemAmount] replaces the amount, it does not add to it:
    on the line it finds, when the line has no requirements, the amount
    becomes the number asked for, or [1] when no amount is given, and every
    other line is as it was; with the amount [null] no line changes. *)
Theorem set_amount_replaces (params : Params.t) (items : list CartItem.t)
    (itemId : string) (i : nat) (item : CartItem.t) :
  Params.valid params = true ->
  Params.itemId params = Some itemId ->
  productInCart itemId items = Some i ->
  items !! i = Some item ->
  CartItem.has_requirements item = false ->
  set_amount (Params.itemId params) (Params.amount_or_1 params) items
  = (match Params.amount params with
     | Params.Number a => <[i := CartItem.with_amount a item]> items
     | Params.Missing => <[i := CartItem.with_amount 1 item]> items
     | Params.Null => items
     end,
     Ok tt).
Proof.
  intros Hvalid Hid Hfind Hitem Hreq.
  pose proof (truthy_id_valid _ _ Hvalid Hid) as Htruthy. rewrite Hid in Htruthy.
  assert (Hne : itemId <> "") by (intros ->; discriminate).
  assert (Hnumber : forall a, 0 < a ->
            set_amount (Some itemId) (Params.Number a) items
            = (<[i := CartItem.with_amount a item]> items, Ok tt)).
  { intros a Ha. rewrite (set_amount_found itemId a items i Hne Ha Hfind).
    f_equal. rewrite list_insert_alter.
    apply list_alter_ext; [|reflexivity].
    intros x Hx. rewrite Hitem in Hx. injection Hx as <-.
    rewrite Hreq. reflexivity. }
  rewrite Hid. unfold Params.amount_or_1.
  destruct (Params.amount params) as [| |a] eqn:Hamount.
  - apply Hnumber. lia.
  - apply set_amount_null.
  - apply Hnumber. eapply valid_amount_pos; eassumption.
Qed.

(** X12: [updateCartItemAmount] is idempotent on the items: running its
    loop again with the same request on the items it left changes
    nothing. *)
Theorem set_amount_idempotent (itemId : option string) (a : Params.amount_t)
    (items : list CartItem.t) :
  set_amount itemId a (set_amount itemId a items).1 = set_amount itemId a items.
Proof.
  destruct (truthy_id itemId) as [id|] eqn:Hid;
    [|unfold set_amount; rewrite Hid; reflexivity].
  destruct (productInCart id items) as [i|] eqn:Hfind;
    [|unfold set_amount; rewrite Hid, Hfind; simpl; rewrite Hfind; reflexivity].
  destruct (positive_amount a) as [n|] eqn:Ha;
    [|unfold set_amount; rewrite Hid, Hfind, Ha; simpl; rewrite Hfind;
      reflexivity].
  destruct (positive_amount_Some _ _ Ha) as [-> Hpos]. clear Ha.
  assert (Hne : id <> "").
  { intros ->. destruct itemId as [[|c s]|]; simpl in Hid; discriminate. }
  assert (Hitem_id : itemId = Some id).
  { destruct itemId as [s|]; simpl in Hid; [|discriminate].
    destruct (String.eqb s ""); congruence. }
  subst itemId.
  rewrite (set_amount_found id n items i Hne Hpos Hfind). simpl.
  rewrite (set_amount_found id n _ i Hne Hpos)
    by (rewrite (productInCart_ids id items); [assumption|];
        apply (alter_amount_ids
                 (fun item => if CartItem.has_requirements item then 1 else n))).
  f_equal. rewrite list_alter_alter_eq.
  apply list_alter_ext; reflexivity.
Qed.

(** X13: setting the amount of a line without requirements and then
    deleting that amount of the same item removes the line and gives back
    the other lines as they were before the two calls. *)
Theorem set_amount_then_delete (items : list CartItem.t) (itemId : string)
    (a : Z) (i : nat) (item : CartItem.t) :
  Params.valid (Params.Make (Some itemId) (Params.Number a)) = true ->
  productInCart itemId items = Some i ->
  items !! i = Some item ->
  CartItem.has_requirements item = false ->
  delete_from (Params.Make (Some itemId) (Params.Number a))
    (set_amount (Some itemId) (Params.Number a) items).1
  = delete i items.
Proof.
  intros Hvalid Hfind Hitem Hreq.
  pose proof (valid_amount_pos _ a Hvalid eq_refl) as Hpos.
  pose proof (truthy_id_valid _ itemId Hvalid eq_refl) as Htruthy.
  simpl in Htruthy.
  assert (Hne : itemId <> "") by (intros ->; discriminate).
  rewrite (set_amount_found itemId a items i Hne Hpos Hfind). simpl.
  set (f := fun item0 : CartItem.t =>
              CartItem.with_amount
                (if CartItem.has_requirements item0 then 1 else a) item0).
  assert (Hfind' : productInCart itemId (alter f i items) = Some i).
  { rewrite (productInCart_ids itemId items); [assumption|].
    apply (alter_amount_ids
             (fun item => if CartItem.has_requirements item then 1 else a)). }
  assert (Hitem' : alter f i items !! i = Some (CartItem.with_amount a item)).
  { rewrite list_lookup_alter_eq, Hitem. unfold f. simpl. rewrite Hreq.
    reflexivity. }
  rewrite (delete_from_found _ (alter f i items) itemId i
             (CartItem.with_amount a item) Hvalid eq_refl Hfind' Hitem').
  simpl. rewrite Z.sub_diag. simpl.
  rewrite <- delete_take_drop. apply delete_alter.
Qed.

(** ** The mutating actions: what is written, and when *)

Lemma field_lookup_eq (p : string) (v : option value) (o : gmap string value) :
  Cart.field p v o !! p = match v with Some x => Some x | None => o !! p end.
Proof. destruct v; simpl; [apply lookup_insert_eq | reflexivity]. Qed.

Lemma field_lookup_ne (p q : string) (v : option value) (o : gmap string value) :
  p <> q -> Cart.field p v o !! q = o !! q.
Proof. intros Hne. destruct v; simpl; [apply lookup_insert_ne; assumption | reflexivity]. Qed.

Ltac field_lookups :=
  unfold Cart.to_object;
  repeat first
    [ rewrite field_lookup_eq
    | rewrite field_lookup_ne by discriminate
    | rewrite lookup_empty ].

(** The object of a typed cart, field by field. *)
Lemma to_object_lookup (c : Cart.t) :
  Cart.to_object c !! "_id" = VStr <$> Cart._id c
  /\ Cart.to_object c !! "user" = VStr <$> Cart.user c
  /\ Cart.to_object c !! "ip" = VStr <$> Cart.ip c
  /\ Cart.to_object c !! "hash" = VStr <$> Cart.hash c
  /\ Cart.to_object c !! "order" = VStr <$> Cart.order c
  /\ Cart.to_object c !! "dateCreated" = VDate <$> Cart.dateCreated c
  /\ Cart.to_object c !! "dateUpdated" = VDate <$> Cart.dateUpdated c
  /\ Cart.to_object c !! "items"
     = (fun l => VArr (CartItem.to_value <$> l)) <$> Cart.items c.
Proof.
  repeat split; field_lookups.
  - destruct (Cart._id c); reflexivity.
  - destruct (Cart.user c); reflexivity.
  - destruct (Cart.ip c); reflexivity.
  - destruct (Cart.hash c); reflexivity.
  - destruct (Cart.order c); reflexivity.
  - destruct (Cart.dateCreated c); reflexivity.
  - destruct (Cart.dateUpdated c); reflexivity.
  - destruct (Cart.items c); reflexivity.
Qed.

Section MutationMore.
Variable adapter_updateById : value -> gmap string value -> result value.
Variable transformDocuments : value -> value.

Abbreviation cart_delete'' := (cart_delete adapter_updateById transformDocuments).
Abbreviation updateCartItemAmount'' :=
  (updateCartItemAmount adapter_updateById transformDocuments).

(** X14: [delete] without an [itemId] (or with an empty one) empties a
    non-empty cart: the cart is left with no line, whatever amount the
    request carries, and with the time of the call as [dateUpdated]; its
    other fields are as they were. *)
Theorem cart_delete_without_itemId_clears (params : Params.t)
    (r : resolved Cart.t) (now : Z) (cart : Cart.t) (items : list CartItem.t) :
  truthy_id (Params.itemId params) = None ->
  first_cart r = Some cart ->
  Cart.items cart = Some items ->
  items <> [] ->
  cart_after (cart_delete'' params r now)
  = Some (Cart.Make (Cart._id cart) (Cart.user cart) (Cart.ip cart)
            (Cart.hash cart) (Cart.order cart) (Cart.dateCreated cart)
            (Some now) (Some [])).
Proof.
  intros Hid Hr Hitems Hne.
  rewrite (cart_delete_nonempty adapter_updateById transformDocuments
             params r now cart items Hr Hitems Hne).
  rewrite save_cart_after. unfold delete_from. rewrite Hid. reflexivity.
Qed.

(** X15: [delete] and [updateCartItemAmount] call the storage exactly when
    the resolved cart has at least one line: with no cart, or a cart with no
    line, no call is made; with a line, the first call is the update of the
    cart, for every request. *)
Theorem mutation_writes_iff_lines (params : Params.t) (r : resolved Cart.t)
    (now : Z) :
  let has_lines :=
    exists cart item items,
      first_cart r = Some cart /\ Cart.items cart = Some (item :: items) in
  (has_lines <->
   exists id command after,
     calls (cart_delete'' params r now) = UpdateById id command :: after)
  /\ (has_lines <->
      exists id command after,
        calls (updateCartItemAmount'' params r now)
        = UpdateById id command :: after)
  /\ (~ has_lines ->
      calls (cart_delete'' params r now) = []
      /\ calls (updateCartItemAmount'' params r now) = []).
Proof.
  intros has_lines.
  assert (Hno : ~ has_lines ->
            calls (cart_delete'' params r now) = []
            /\ calls (updateCartItemAmount'' params r now) = []).
  { intros Hnone. unfold cart_delete, updateCartItemAmount.
    destruct (first_cart r) as [cart|] eqn:Hr; [|split; reflexivity].
    destruct (Cart.items cart) as [[|item items]|] eqn:Hitems;
      try (split; reflexivity).
    exfalso. apply Hnone. exists cart, item, items. auto. }
  assert (Hdec : has_lines \/ ~ has_lines).
  { unfold has_lines.
    destruct (first_cart r) as [cart|]; [|right; intros (? & ? & ? & ? & _); discriminate].
    destruct (Cart.items cart) as [[|item items]|] eqn:Hitems.
    - right. intros (c & i & l & [= <-] & H). congruence.
    - left. exists cart, item, items. auto.
    - right. intros (c & i & l & [= <-] & H). congruence. }
  split; [|split; [|exact Hno]].
  - split.
    + intros (cart & item & items & Hr & Hitems).
      rewrite (cart_delete_nonempty adapter_updateById transformDocuments
                 params r now cart (item :: items) Hr Hitems ltac:(discriminate)).
      destruct (save_calls adapter_updateById transformDocuments "removed"
                  (Cart.with_dateUpdated now
                     (Cart.with_items (delete_from params (item :: items)) cart)))
        as [after ->].
      eauto.
    + intros (id & command & after & Hcalls).
      destruct Hdec as [H | H]; [exact H|].
      destruct (Hno H) as [Hnil _]. congruence.
  - split.
    + intros (cart & item & items & Hr & Hitems).
      destruct (set_amount (Params.itemId params) (Params.amount_or_1 params)
                  (item :: items)) as [items' status] eqn:Hset.
      pose proof (set_amount_never_removes (Params.itemId params)
                    (Params.amount_or_1 params) (item :: items)) as [_ Hok].
      rewrite Hset in Hok. simpl in Hok. subst status.
      rewrite (updateCartItemAmount_nonempty adapter_updateById transformDocuments
                 params r now cart (item :: items) items' Hr Hitems
                 ltac:(discriminate) Hset).
      destruct (save_calls adapter_updateById transformDocuments "updated"
                  (Cart.with_dateUpdated now (Cart.with_items items' cart)))
        as [after ->].
      eauto.
    + intros (id & command & after & Hcalls).
      destruct Hdec as [H | H]; [exact H|].
      destruct (Hno H) as [_ Hnil]. congruence.
Qed.

(** What [save] writes for a typed cart with a non-empty [_id]: the update
    goes to that id, and its payload has the fields of the cart without
    [_id]. *)
Lemma save_writes_without_id (kind : string) (cart : Cart.t) (id : string) :
  Cart._id cart = Some id -> id <> "" ->
  exists command after,
    calls (save Cart.to_object adapter_updateById transformDocuments kind cart)
    = UpdateById (VStr id) command :: after
    /\ payload command = delete "_id" (Cart.to_object cart).
Proof.
  intros Hid Hne.
  destruct (save_calls adapter_updateById transformDocuments kind cart)
    as [after Hcalls].
  destruct (to_object_lookup cart) as (Hlookup & _).
  assert (Hget : get (Cart.to_object cart) "_id" = VStr id).
  { unfold get. rewrite Hlookup, Hid. reflexivity. }
  rewrite Hget in Hcalls.
  exists (prepareForUpdate (Cart.to_object cart)), after.
  split; [exact Hcalls|].
  rewrite prepareForUpdate_payload, Hget. simpl.
  destruct (String.eqb id "") eqn:He; [|reflexivity].
  apply String.eqb_eq in He. contradiction.
Qed.

(** X16: when [delete] changes a cart that has a non-empty [_id], the
    storage is asked to update the document of that id, and the payload of
    the update has no [_id], has the time of the call as [dateUpdated], the
    lines the loop left as [items], and the other fields of the cart. *)
Theorem cart_delete_writes_cart_without_id (params : Params.t)
    (r : resolved Cart.t) (now : Z) (cart : Cart.t) (items : list CartItem.t)
    (id : string) :
  first_cart r = Some cart ->
  Cart.items cart = Some items ->
  items <> [] ->
  Cart._id cart = Some id -> id <> "" ->
  exists command after,
    calls (cart_delete'' params r now) = UpdateById (VStr id) command :: after
    /\ payload command !! "_id" = None
    /\ payload command !! "dateUpdated" = Some (VDate now)
    /\ payload command !! "items"
       = Some (VArr (CartItem.to_value <$> delete_from params items))
    /\ payload command !! "user" = VStr <$> Cart.user cart
    /\ payload command !! "ip" = VStr <$> Cart.ip cart
    /\ payload command !! "hash" = VStr <$> Cart.hash cart
    /\ payload command !! "order" = VStr <$> Cart.order cart
    /\ payload command !! "dateCreated" = VDate <$> Cart.dateCreated cart.
Proof.
  intros Hr Hitems Hne Hid Hid'.
  rewrite (cart_delete_nonempty adapter_updateById transformDocuments
             params r now cart items Hr Hitems Hne).
  set (cart' := Cart.with_dateUpdated now
                  (Cart.with_items (delete_from params items) cart)).
  destruct (save_writes_without_id "removed" cart' id Hid Hid')
    as (command & after & Hcalls & Hpayload).
  exists command, after. split; [exact Hcalls|].
  rewrite Hpayload.
  destruct (to_object_lookup cart')
    as (_ & Huser & Hip & Hhash & Horder & Hcreated & Hupdated & Hlines).
  split; [apply lookup_delete_eq|].
  rewrite !lookup_delete_ne by discriminate.
  repeat split; assumption.
Qed.

(** X17: when the storage refuses the update, [delete] and
    [updateCartItemAmount] on a cart with lines fail with the error of the
    storage and announce no change: the update is their only call.  The
    cart object has by then its new [dateUpdated]. *)
Theorem failed_write_is_not_announced (e : error) (params : Params.t)
    (r : resolved Cart.t) (now : Z) (cart : Cart.t) (item : CartItem.t)
    (items : list CartItem.t) :
  (forall id command, adapter_updateById id command = Throw e) ->
  first_cart r = Some cart ->
  Cart.items cart = Some (item :: items) ->
  (returned (cart_delete'' params r now) = Throw e
   /\ (exists id command,
         calls (cart_delete'' params r now) = [UpdateById id command])
   /\ exists cart', cart_after (cart_delete'' params r now) = Some cart'
                    /\ Cart.dateUpdated cart' = Some now)
  /\ (returned (updateCartItemAmount'' params r now) = Throw e
      /\ (exists id command,
            calls (updateCartItemAmount'' params r now) = [UpdateById id command])
      /\ exists cart', cart_after (updateCartItemAmount'' params r now) = Some cart'
                       /\ Cart.dateUpdated cart' = Some now).
Proof.
  intros Hfail Hr Hitems. split.
  - rewrite (cart_delete_nonempty adapter_updateById transformDocuments
               params r now cart (item :: items) Hr Hitems ltac:(discriminate)).
    unfold save. rewrite Hfail. simpl. eauto 10.
  - destruct (set_amount (Params.itemId params) (Params.amount_or_1 params)
                (item :: items)) as [items' status] eqn:Hset.
    pose proof (set_amount_never_removes (Params.itemId params)
                  (Params.amount_or_1 params) (item :: items)) as [_ Hok].
    rewrite Hset in Hok. simpl in Hok. subst status.
    rewrite (updateCartItemAmount_nonempty adapter_updateById transformDocuments
               params r now cart (item :: items) items' Hr Hitems
               ltac:(discriminate) Hset).
    unfold save. rewrite Hfail. simpl. eauto 10.
Qed.

(** X18: [updateCartItemAmount] without an [itemId], or with one that no
    line has, leaves the lines as they are, and still stamps the cart with
    the time of the call and writes it. *)
Theorem updateCartItemAmount_without_line (params : Params.t)
    (r : resolved Cart.t) (now : Z) (cart : Cart.t) (items : list CartItem.t) :
  first_cart r = Some cart ->
  Cart.items cart = Some items ->
  items <> [] ->
  truthy_id (Params.itemId params) = None
  \/ (exists itemId, truthy_id (Params.itemId params) = Some itemId
                     /\ productInCart itemId items = None) ->
  updateCartItemAmount'' params r now
  = save Cart.to_object adapter_updateById transformDocuments "updated"
         (Cart.with_dateUpdated now cart)
  /\ Cart.items (Cart.with_dateUpdated now cart) = Some items.
Proof.
  intros Hr Hitems Hne Hmiss.
  assert (Hset : set_amount (Params.itemId params)
                   (Params.amount_or_1 params) items = (items, Ok tt)).
  { unfold set_amount.
    destruct Hmiss as [-> | (itemId & -> & ->)]; reflexivity. }
  rewrite (updateCartItemAmount_nonempty adapter_updateById transformDocuments
             params r now cart items items Hr Hitems Hne Hset).
  rewrite (with_items_same cart items Hitems). auto.
Qed.
End MutationMore.

Lemma mutation_keeps_amounts_positive_witness :
  Forall (fun item => 0 < CartItem.amount item)
    (delete_from (Params.Make (Some "prod-chair") (Params.Number 6))
       [chair_line; mug_line; CartItem.with_amount 2 chair_line])
  /\ Forall (fun item => 0 < CartItem.amount item)
       (set_amount (Some "prod-mug") (Params.Number 4) [chair_line; mug_line]).1.
Proof.
  split.
  - apply (mutation_keeps_amounts_positive
             (Params.Make (Some "prod-chair") (Params.Number 6)) None
             (Params.Number 1)
             [chair_line; mug_line; CartItem.with_amount 2 chair_line]).
    repeat constructor.
  - apply (mutation_keeps_amounts_positive
             (Params.Make None Params.Missing) (Some "prod-mug")
             (Params.Number 4) [chair_line; mug_line]).
    repeat constructor.
Defined.

Lemma set_amount_replaces_witness :
  set_amount (Some "prod-chair") (Params.Number 7) [chair_line; mug_line]
  = ([CartItem.with_amount 7 chair_line; mug_line], Ok tt).
Proof.
  exact (set_amount_replaces (Params.Make (Some "prod-chair") (Params.Number 7))
           [chair_line; mug_line] "prod-chair" 0%nat chair_line
           eq_refl eq_refl eq_refl eq_refl eq_refl).
Defined.

Lemma set_amount_then_delete_witness :
  delete_from (Params.Make (Some "prod-chair") (Params.Number 9))
    (set_amount (Some "prod-chair") (Params.Number 9) [chair_line; mug_line]).1
  = [mug_line].
Proof.
  exact (set_amount_then_delete [chair_line; mug_line] "prod-chair" 9 0%nat
           chair_line eq_refl eq_refl eq_refl eq_refl).
Defined.

Lemma cart_delete_without_itemId_clears_witness :
  cart_after (cart_delete echo_updateById plain_transform
                (Params.Make None (Params.Number 2)) (ROne typed_cart) 9)
  = Some (Cart.Make (Some "c1") (Some "u1") (Some "10.0.0.1")
            (Some "0123456789abcdef0123456789abcdef") None (Some 1) (Some 9)
            (Some [])).
Proof.
  exact (cart_delete_without_itemId_clears echo_updateById plain_transform
           (Params.Make None (Params.Number 2)) (ROne typed_cart) 9 typed_cart
           [chair_line; mug_line] eq_refl eq_refl eq_refl ltac:(discriminate)).
Defined.

Lemma cart_delete_writes_cart_without_id_witness :
  exists command after,
    calls (cart_delete echo_updateById plain_transform
             (Params.Make (Some "prod-chair") Params.Missing) (ROne typed_cart) 9)
    = UpdateById (VStr "c1") command :: after
    /\ payload command !! "_id" = None
    /\ payload command !! "dateUpdated" = Some (VDate 9)
    /\ payload command !! "items" = Some (VArr [CartItem.to_value mug_line]).
Proof.
  destruct (cart_delete_writes_cart_without_id echo_updateById plain_transform
              (Params.Make (Some "prod-chair") Params.Missing) (ROne typed_cart) 9
              typed_cart [chair_line; mug_line] "c1"
              eq_refl eq_refl ltac:(discriminate) eq_refl ltac:(discriminate))
    as (command & after & Hcalls & Hid & Hdate & Hitems & _).
  exists command, after. repeat split; assumption.
Defined.

Lemma failed_write_is_not_announced_witness :
  returned (cart_delete broken_updateById plain_transform
              (Params.Make (Some "prod-chair") Params.Missing) (ROne typed_cart) 9)
  = Throw (StorageError "update failed")
  /\ returned (updateCartItemAmount broken_updateById plain_transform
                 (Params.Make (Some "prod-chair") (Params.Number 2)) (ROne typed_cart) 9)
     = Throw (StorageError "update failed").
Proof.
  split.
  - destruct (failed_write_is_not_announced broken_updateById plain_transform
                (StorageError "update failed")
                (Params.Make (Some "prod-chair") Params.Missing) (ROne typed_cart) 9
                typed_cart chair_line [mug_line]
                ltac:(reflexivity) eq_refl eq_refl) as [[H _] _].
    exact H.
  - destruct (failed_write_is_not_announced broken_updateById plain_transform
                (StorageError "update failed")
                (Params.Make (Some "prod-chair") (Params.Number 2)) (ROne typed_cart) 9
                typed_cart chair_line [mug_line]
                ltac:(reflexivity) eq_refl eq_refl) as [_ [H _]].
    exact H.
Defined.

Lemma updateCartItemAmount_without_line_witness :
  updateCartItemAmount echo_updateById plain_transform
    (Params.Make None (Params.Number 3)) (ROne typed_cart) 9
  = save Cart.to_object echo_updateById plain_transform "updated"
         (Cart.with_dateUpdated 9 typed_cart)
  /\ updateCartItemAmount echo_updateById plain_transform
       (Params.Make (Some "prod-none") (Params.Number 3)) (ROne typed_cart) 9
     = save Cart.to_object echo_updateById plain_transform "updated"
            (Cart.with_dateUpdated 9 typed_cart).
Proof.
  split.
  - apply (updateCartItemAmount_without_line echo_updateById plain_transform
             (Params.Make None (Params.Number 3)) (ROne typed_cart) 9 typed_cart
             [chair_line; mug_line] eq_refl eq_refl ltac:(discriminate)).
    left. reflexivity.
  - apply (updateCartItemAmount_without_line echo_updateById plain_transform
             (Params.Make (Some "prod-none") (Params.Number 3)) (ROne typed_cart) 9
             typed_cart [chair_line; mug_line] eq_refl eq_refl ltac:(discriminate)).
    right. exists "prod-none". split; reflexivity.
Defined.

(** ** The reconciler: keys, idempotence, and the id of the write *)

(** X19: the reconciler neither adds nor removes a field: the reconciled
    cart has the fields of the cart and [dateUpdated], whatever the patch
    holds. *)
Theorem updateMyCart_keeps_the_fields
    (adapter_updateById : value -> gmap string value -> result value)
    (transformDocuments : value -> value)
    (cartNew : gmap string value) (r : resolved (gmap string value)) (now : Z)
    (cart : gmap string value) :
  first_cart r = Some cart ->
  dom (reconcile cart cartNew) = dom cart
  /\ exists cart',
       cart_after (updateMyCart adapter_updateById transformDocuments cartNew r now)
       = Some cart'
       /\ dom cart' = {[ "dateUpdated" ]} ∪ dom cart.
Proof.
  intros Hr.
  assert (Hdom : dom (reconcile cart cartNew) = dom cart).
  { apply set_eq. intros p. rewrite !elem_of_dom, reconcile_lookup.
    destruct (cart !! p) as [old|] eqn:Hold.
    - destruct (cartNew !! p); split; eauto.
    - split; intros [? ?]; discriminate. }
  split; [exact Hdom|].
  eexists. split.
  - apply updateMyCart_cart_after. exact Hr.
  - rewrite dom_insert_L, Hdom. reflexivity.
Qed.

(** X20: reconciling is idempotent, and a patch that shares no field with
    the cart (the empty patch among them) changes nothing. *)
Theorem reconcile_idempotent (cart cartNew : gmap string value) :
  reconcile (reconcile cart cartNew) cartNew = reconcile cart cartNew
  /\ ((forall p, is_Some (cart !! p) -> cartNew !! p = None) ->
      reconcile cart cartNew = cart).
Proof.
  split.
  - apply map_eq. intros p. rewrite !reconcile_lookup.
    destruct (cart !! p), (cartNew !! p); reflexivity.
  - intros Hdisjoint. apply map_eq. intros p. rewrite reconcile_lookup.
    destruct (cart !! p) as [old|] eqn:Hold; [|reflexivity].
    rewrite (Hdisjoint p) by eauto. reflexivity.
Qed.

(** X21: the reconciler lets the patch replace [_id]: when the cart and
    the patch both own [_id], the storage is asked to update the document
    of the patch's id, not the one the cart was read under. *)
Theorem updateMyCart_patch_redirects_write
    (adapter_updateById : value -> gmap string value -> result value)
    (transformDocuments : value -> value)
    (cartNew : gmap string value) (r : resolved (gmap string value)) (now : Z)
    (cart : gmap string value) (id : value) :
  first_cart r = Some cart ->
  is_Some (cart !! "_id") ->
  cartNew !! "_id" = Some id ->
  exists command after,
    calls (updateMyCart adapter_updateById transformDocuments cartNew r now)
    = UpdateById id command :: after
    /\ payload command !! "_id" = if truthy id then None else Some id.
Proof.
  intros Hr [old Hold] Hnew.
  unfold updateMyCart. rewrite Hr.
  set (cart' := <["dateUpdated" := VDate now]> (reconcile cart cartNew)).
  assert (Hid : cart' !! "_id" = Some id).
  { unfold cart'. rewrite lookup_insert_ne by discriminate.
    rewrite reconcile_lookup, Hold, Hnew. reflexivity. }
  assert (Hget : get cart' "_id" = id).
  { unfold get. rewrite Hid. reflexivity. }
  exists (prepareForUpdate cart').
  unfold save. simpl. rewrite Hget.
  destruct (adapter_updateById id (prepareForUpdate cart')); eexists;
    (split; [reflexivity|]);
    rewrite prepareForUpdate_payload, Hget;
    (destruct (truthy id); [apply lookup_delete_eq | exact Hid]).
Qed.

Lemma updateMyCart_keeps_the_fields_witness :
  dom (reconcile cart_fields {[ "user" := VStr "u2"; "coupon" := VStr "X" ]})
  = dom cart_fields.
Proof.
  destruct (updateMyCart_keeps_the_fields echo_updateById plain_transform
              {[ "user" := VStr "u2"; "coupon" := VStr "X" ]}
              (ROne cart_fields) 9 cart_fields eq_refl) as [Hdom _].
  exact Hdom.
Defined.

Lemma updateMyCart_patch_redirects_write_witness :
  exists command after,
    calls (updateMyCart echo_updateById plain_transform
             {[ "_id" := VStr "c9" ]} (ROne cart_fields) 9)
    = UpdateById (VStr "c9") command :: after
    /\ payload command !! "_id" = None.
Proof.
  destruct (updateMyCart_patch_redirects_write echo_updateById plain_transform
              {[ "_id" := VStr "c9" ]} (ROne cart_fields) 9 cart_fields
              (VStr "c9") eq_refl ltac:(eexists; reflexivity) eq_refl)
    as (command & after & Hcalls & Hpayload).
  exists command, after. split; assumption.
Defined.

(** X22: the update command does not depend on a truthy [_id]: two
    objects that differ only there give the same command, which is that of
    the object without [_id]; and preparing the payload of a command again
    gives the same command. *)
Theorem prepareForUpdate_forgets_truthy_id (object : gmap string value)
    (id : value) :
  truthy id = true ->
  prepareForUpdate (<["_id" := id]> object) = prepareForUpdate (delete "_id" object)
  /\ prepareForUpdate (payload (prepareForUpdate (<["_id" := id]> object)))
     = prepareForUpdate (<["_id" := id]> object).
Proof.
  intros Hid.
  assert (Hwith : prepareForUpdate (<["_id" := id]> object)
                  = {[ "$set" := VObj (delete "_id" object) ]}).
  { unfold prepareForUpdate, get. rewrite lookup_insert_eq. simpl.
    rewrite Hid. destruct id; try discriminate; simpl;
      rewrite delete_insert_eq; reflexivity. }
  assert (Hwithout : prepareForUpdate (delete "_id" object)
                     = {[ "$set" := VObj (delete "_id" object) ]}).
  { unfold prepareForUpdate, get. rewrite lookup_delete_eq. reflexivity. }
  split; [congruence|].
  rewrite Hwith at 1. unfold payload at 1. rewrite lookup_singleton_eq.
  congruence.
Qed.

Lemma prepareForUpdate_forgets_truthy_id_witness :
  prepareForUpdate (<["_id" := VStr "c1"]> {[ "hash" := VStr "h" ]})
  = prepareForUpdate (<["_id" := VStr "c2"]> {[ "hash" := VStr "h" ]}).
Proof.
  destruct (prepareForUpdate_forgets_truthy_id {[ "hash" := VStr "h" ]}
              (VStr "c1") eq_refl) as [-> _].
  destruct (prepareForUpdate_forgets_truthy_id {[ "hash" := VStr "h" ]}
              (VStr "c2") eq_refl) as [-> _].
  reflexivity.
Defined.

(** ** The sweep and the daily job *)

Lemma filter_none {A : Type} (f : A -> bool) (l : list A) :
  (forall x, In x l -> f x = false) -> List.filter f l = [].
Proof.
  induction l as [|x l IH]; simpl; intros Hf; [reflexivity|].
  rewrite (Hf x) by auto. apply IH. auto.
Qed.

Lemma filter_is_sublist {A : Type} (f : A -> bool) (l : list A) :
  List.filter f l `sublist_of` l.
Proof.
  induction l as [|x l IH]; simpl; [constructor|].
  destruct (f x); [apply sublist_skip | apply sublist_cons]; assumption.
Qed.

Lemma same_id_same_cart (store : list Cart.t) (c c' : Cart.t) :
  NoDup (Cart._id <$> store) ->
  In c store -> In c' store -> Cart._id c = Cart._id c' -> c = c'.
Proof.
  induction store as [|x store IH]; simpl; [contradiction|].
  rewrite NoDup_cons. intros [Hfresh Hnodup] [-> | Hc] [-> | Hc'] Hid.
  - reflexivity.
  - exfalso. apply Hfresh. rewrite Hid.
    apply list_elem_of_fmap_2, list_elem_of_In. assumption.
  - exfalso. apply Hfresh. rewrite <- Hid.
    apply list_elem_of_fmap_2, list_elem_of_In. assumption.
  - apply IH; assumption.
Qed.

Section SweeperMore.
Variable stringify : value -> string.
Variable fails : option string -> option error.
Variable month_before : Z -> Z.

Abbreviation cleanCarts' := (cleanCarts stringify fails month_before).

Lemma cleanCarts_unfolded (now : Z) (store : list Cart.t) :
  let found := adapter_find (month_before now) store in
  cleanCarts' now store =
  (promise_all (removal_outcome stringify fails <$> found),
   List.filter (fun cart => negb (removed_by fails found cart)) store).
Proof.
  intros found. unfold cleanCarts. fold found.
  pose proof (remove_each_promises stringify fails found store) as Hpromises.
  pose proof (remove_each_store stringify fails found store) as Hstore.
  destruct (remove_each stringify fails found store) as [promises store'].
  simpl in *. subst. reflexivity.
Qed.

(** With distinct ids in the store, a removal takes a cart out only if the
    cart itself was found. *)
Lemma removed_by_found_only (d : Z) (store : list Cart.t) (cart : Cart.t) :
  NoDup (Cart._id <$> store) ->
  In cart store ->
  removed_by fails (adapter_find d store) cart = true ->
  older_than d cart = true /\ fails (Cart._id cart) = None.
Proof.
  intros Hnodup Hin Hremoved. unfold removed_by in Hremoved.
  apply existsb_exists in Hremoved as (stale & Hstale & Hsame).
  apply andb_prop in Hsame as [Hid Hok].
  apply bool_decide_eq_true_1 in Hid. apply bool_decide_eq_true_1 in Hok.
  apply List.filter_In in Hstale as [Hstale Hold].
  assert (cart = stale) as -> by (eapply same_id_same_cart; eassumption).
  auto.
Qed.

(** X23: a sweep that finds no cart older than the cutoff removes
    nothing and answers with the empty list. *)
Theorem cleanCarts_nothing_stale (now : Z) (store : list Cart.t) :
  (forall cart, In cart store -> older_than (month_before now) cart = false) ->
  cleanCarts' now store = (Ok [], store).
Proof.
  intros Hfresh. rewrite cleanCarts_unfolded.
  unfold adapter_find. rewrite (filter_none _ _ Hfresh). simpl.
  f_equal. apply filter_all. reflexivity.
Qed.

(** X24: when the carts of the store have distinct ids and no removal
    fails, the sweep removes exactly the carts whose [dateUpdated] is
    before the cutoff (a cart without [dateUpdated] stays) and answers with
    one message for each of them, in the order of the store. *)
Theorem cleanCarts_removes_exactly_stale (now : Z) (store : list Cart.t) :
  NoDup (Cart._id <$> store) ->
  (forall cart, In cart store -> fails (Cart._id cart) = None) ->
  cleanCarts' now store =
  (Ok (removal_message stringify
         <$> List.filter (older_than (month_before now)) store),
   List.filter (fun cart => negb (older_than (month_before now) cart)) store).
Proof.
  intros Hnodup Hok. rewrite cleanCarts_unfolded. cbv zeta.
  fold (adapter_find (month_before now) store).
  set (found := adapter_find (month_before now) store).
  assert (Hfirst : first_failure fails found = None).
  { unfold first_failure.
    assert (Hall : forall cart, In cart found -> fails (Cart._id cart) = None).
    { intros cart Hin. apply Hok. apply List.filter_In in Hin as [Hin _]. exact Hin. }
    clearbody found. induction found as [|cart found IH]; [reflexivity|].
    simpl. rewrite (Hall cart) by (left; reflexivity). apply IH.
    intros c Hc. apply Hall. right. exact Hc. }
  f_equal.
  - rewrite promise_all_outcomes, first_failure_outcomes, Hfirst.
    rewrite no_failure_messages by assumption. reflexivity.
  - apply List.filter_ext_in. intros cart Hin. f_equal.
    destruct (removed_by fails found cart) eqn:Hremoved.
    + symmetry. eapply removed_by_found_only; eassumption.
    + destruct (older_than (month_before now) cart) eqn:Hold; [|reflexivity].
      rewrite removed_by_own_removal in Hremoved; [discriminate| |auto].
      apply List.filter_In. auto.
Qed.

(** X25: whatever fails, the sweep adds no cart and reorders none, and,
    when the carts of the store have distinct ids, a cart whose
    [dateUpdated] is not before the cutoff, or whose own removal fails, is
    still in the store after the sweep. *)
Theorem cleanCarts_keeps_recent_carts (now : Z) (store : list Cart.t) :
  (cleanCarts' now store).2 `sublist_of` store
  /\ (NoDup (Cart._id <$> store) ->
      forall cart, In cart store ->
        older_than (month_before now) cart = false
        \/ fails (Cart._id cart) <> None ->
        In cart (cleanCarts' now store).2).
Proof.
  rewrite cleanCarts_unfolded. simpl. split; [apply filter_is_sublist|].
  intros Hnodup cart Hin Hkeep.
  apply List.filter_In. split; [assumption|].
  destruct (removed_by fails _ cart) eqn:Hremoved; [|reflexivity].
  destruct (removed_by_found_only _ _ _ Hnodup Hin Hremoved) as [Hold Hok].
  destruct Hkeep as [Hrecent | Hfails]; [congruence | contradiction].
Qed.

(** X26: the daily job logs its start, sweeps the store as [cleanCarts]
    does, and logs "Carts Cleaned up" with the messages of the sweep only
    when no removal failed; after a failure nothing more is logged. *)
Theorem onTick_logs_completion_unless_failure (now : Z) (store : list Cart.t) :
  let found := adapter_find (month_before now) store in
  (onTick stringify fails month_before now store).2 = (cleanCarts' now store).2
  /\ (onTick stringify fails month_before now store).1 =
     match first_failure fails found with
     | None =>
         [Info "Starting to Clean up the Carts" None;
          Info "Carts Cleaned up" (Some (removal_message stringify <$> found))]
     | Some _ => [Info "Starting to Clean up the Carts" None]
     end.
Proof.
  intros found. unfold onTick. rewrite cleanCarts_unfolded. fold found.
  rewrite promise_all_outcomes, first_failure_outcomes.
  destruct (first_failure fails found) eqn:Hfirst; simpl; [auto|].
  rewrite no_failure_messages by assumption. auto.
Qed.
End SweeperMore.

Lemma cleanCarts_nothing_stale_witness :
  cleanCarts print_id a_fails thirty_days_before 100 [fresh_c] = (Ok [], [fresh_c]).
Proof.
  apply (cleanCarts_nothing_stale print_id a_fails thirty_days_before 100 [fresh_c]).
  intros cart [<- | []]. reflexivity.
Defined.

Lemma cleanCarts_removes_exactly_stale_witness :
  cleanCarts print_id (fun _ => None) thirty_days_before 100
    [stale_a; fresh_c; stale_b]
  = (Ok ["Removed carts: a"; "Removed carts: b"], [fresh_c]).
Proof.
  apply (cleanCarts_removes_exactly_stale print_id (fun _ => None)
           thirty_days_before 100 [stale_a; fresh_c; stale_b]).
  - repeat (apply NoDup_cons_2; [intros H; repeat (apply elem_of_cons in H as [H|H]; [discriminate|]); inversion H|]).
    apply NoDup_nil_2.
  - reflexivity.
Defined.
